(** * personal-finance-app: the forecasting and recommendation engine

    A shallow embedding of the backend: the algorithmic core
    ([backend/server.js], [backend/utils/mlModel.js],
    [backend/utils/recommendations.js]) with the properties its
    specification states about it, and, with
    [backend/utils/dataProcessor.js] and [backend/middleware/security.js],
    the validation, the sanitising of request bodies and the two analysis
    routes, with what the code does at its edges.

    JavaScript numbers are IEEE-754 binary64 values; they are embedded as
    Rocq's primitive [float]s, so every arithmetic step of the source is the
    same operation here and runs under [vm_compute].  What the source takes
    from the JavaScript runtime ([Math.round], [toFixed], [toISOString],
    [Object.keys], [Array.prototype.sort], [String.prototype.trim], thrown
    exceptions) is modelled in [Module JS], after ECMA-262. *)

From Stdlib Require Import ZArith List String Ascii Bool Lia.
From Stdlib Require Import Floats Uint63 DecimalString DecimalN DecimalPos.
From Stdlib Require Import Permutation Sorted OrdersEx.
Import ListNotations.

Set Implicit Arguments.
Set Warnings "-inexact-float".
Local Open Scope string_scope.

(* ================================================================== *)
(** * The JavaScript runtime the source relies on                      *)
(* ================================================================== *)

Module JS.

(** ** Completions: a value, or a thrown exception *)

Inductive exn : Type :=
| ReferenceError (name : string)   (* "<name> is not defined" *)
| TypeError (msg : string)
| RangeError (msg : string).

Inductive completion (A : Type) : Type :=
| Ok (a : A)
| Throw (e : exn).
Arguments Ok {A} a.
Arguments Throw {A} e.

Definition bind {A B} (c : completion A) (k : A -> completion B) : completion B :=
  match c with
  | Ok a => k a
  | Throw e => Throw e
  end.

Notation "x <- c ;; k" := (bind c (fun x => k))
  (at level 61, c at next level, right associativity).

(** [Array.prototype.reduce] with an initial value, for a callback that may
    throw. *)
Fixpoint reduceM {A B} (f : B -> A -> completion B) (l : list A) (b : B)
  : completion B :=
  match l with
  | [] => Ok b
  | a :: l' => b' <- f b a ;; reduceM f l' b'
  end.

(** [Array.prototype.filter] for a predicate that may throw. *)
Fixpoint filterM {A} (p : A -> completion bool) (l : list A)
  : completion (list A) :=
  match l with
  | [] => Ok []
  | a :: l' =>
      keep <- p a ;;
      rest <- filterM p l' ;;
      Ok (if keep then a :: rest else rest)
  end.

(** [Array.prototype.map] for a callback that may throw. *)
Fixpoint mapM {A B} (f : A -> completion B) (l : list A) : completion (list B) :=
  match l with
  | [] => Ok []
  | a :: l' => b <- f a ;; bs <- mapM f l' ;; Ok (b :: bs)
  end.

(** ** Numbers *)

Definition Number := float.

Definition isNaN (x : Number) : bool := negb (x =? x)%float.

(** ToBoolean on a number: [0], [-0] and [NaN] are falsy. *)
Definition truthy (x : Number) : bool := negb (isNaN x || (x =? 0)%float).

(** An integer of magnitude below 2^63 (an array index, a length, the
    result of a rounding) as a number; exact below 2^53. *)
Definition of_Z (n : Z) : Number :=
  if (n <? 0)%Z
  then (- PrimFloat.of_uint63 (Uint63.of_Z (- n)))%float
  else PrimFloat.of_uint63 (Uint63.of_Z n).

Definition of_nat (n : nat) : Number := of_Z (Z.of_nat n).

Definition Math_abs (x : Number) : Number := PrimFloat.abs x.
Definition Math_sqrt (x : Number) : Number := PrimFloat.sqrt x.

(** [Math.pow(x, 2)]: the product [x * x], which is what the fdlibm-derived
    [pow] of the JavaScript engines returns for the exponent 2. *)
Definition Math_pow_2 (x : Number) : Number := (x * x)%float.

(** [Math.max] and [Math.min] of two arguments: [NaN] if either is [NaN],
    and [+0] counts as larger than [-0]. *)
Definition Math_max (a b : Number) : Number :=
  if isNaN a || isNaN b then nan
  else if (a <? b)%float then b
  else if (b <? a)%float then a
  else match classify a with NZero => b | _ => a end.

Definition Math_min (a b : Number) : Number :=
  if isNaN a || isNaN b then nan
  else if (a <? b)%float then a
  else if (b <? a)%float then b
  else match classify a with PZero => b | _ => a end.

(** [Math.round]: the nearest integer, ties towards +infinity; [NaN], the
    infinities and the zeros are returned as they are, and a result of zero
    keeps the sign of a negative argument. *)
Definition Math_round (x : Number) : Number :=
  match Prim2SF x with
  | S754_finite s m e =>
      if (0 <=? e)%Z then x
      else
        let d := (2 ^ (- e))%Z in                      (* x = +-m / d *)
        let twice := if s then (- (2 * Z.pos m))%Z else (2 * Z.pos m)%Z in
        let n := ((twice + d) / (2 * d))%Z in          (* floor (x + 1/2) *)
        if (n =? 0)%Z then (if s then neg_zero else zero) else of_Z n
  | _ => x
  end.

(** ** Strings *)

Definition digits (n : Z) : string :=
  NilZero.string_of_uint (N.to_uint (Z.to_N n)).

Fixpoint zeros (k : nat) : string :=
  match k with
  | O => EmptyString
  | S k' => String "0" (zeros k')
  end.

(** [String.prototype.padStart(k, "0")]. *)
Definition padStart0 (k : nat) (s : string) : string :=
  zeros (k - String.length s) ++ s.

(** [String.prototype.slice(i, j)] for [0 <= i <= j]. *)
Definition String_slice (i j : nat) (s : string) : string :=
  substring i (j - i) s.

(** ** Number to string

    A positive rational is a pair [(a, b)] standing for [a / b], [b > 0]. *)

Definition pow (base k : Z) : Z * Z :=
  if (0 <=? k)%Z then (base ^ k, 1)%Z else (1, base ^ (- k))%Z.

(** The decimal exponent [n] of [a / b]: the least [n] from [from] on with
    [a / b < 10^n]. *)
Fixpoint decimal_exponent (fuel : nat) (a b from : Z) : Z :=
  match fuel with
  | O => from
  | S fuel' =>
      let '(pn, pd) := pow 10 from in
      if (a * pd <? b * pn)%Z then from
      else decimal_exponent fuel' a b (from + 1)%Z
  end.

(** Number::toString, step 5, for the finite positive number [m * 2^e]:
    the digits [s] ([k] of them, [k] least) and the exponent [n] such that
    [s * 10^(n-k)] reads back as that number.  The number is [4m] units of
    [2^(e-2)]; what reads back as it lies between the midpoints to its
    neighbours, [lo] and [hi] units, the midpoints included when [m] is
    even. *)
Definition reads_back (m : positive) (e : Z) (n k s : Z) : bool :=
  let '(un, ud) := pow 2 (e - 2) in
  let '(pn, pd) := pow 10 (n - k) in
  let boundary := (Z.pos m =? 2 ^ 52)%Z && (-1074 <? e)%Z in
  let lo := (4 * Z.pos m - (if boundary then 1 else 2))%Z in
  let hi := (4 * Z.pos m + 2)%Z in
  let c := (s * pn * ud)%Z in
  if Z.even (Z.pos m)
  then (lo * un * pd <=? c)%Z && (c <=? hi * un * pd)%Z
  else (lo * un * pd <? c)%Z && (c <? hi * un * pd)%Z.

Definition distance (m : positive) (e : Z) (n k s : Z) : Z :=
  let '(un, ud) := pow 2 (e - 2) in
  let '(pn, pd) := pow 10 (n - k) in
  Z.abs (s * pn * ud - 4 * Z.pos m * un * pd).

Definition candidate (m : positive) (e : Z) (n k : Z) : option Z :=
  let '(un, ud) := pow 2 (e - 2) in
  let '(pn, pd) := pow 10 (n - k) in
  let below := ((4 * Z.pos m * un * pd) / (ud * pn))%Z in
  let above := (below + 1)%Z in
  match reads_back m e n k below, reads_back m e n k above with
  | true, false => Some below
  | false, true => Some above
  | false, false => None
  | true, true =>
      let db := distance m e n k below in
      let da := distance m e n k above in
      if (db <? da)%Z then Some below
      else if (da <? db)%Z then Some above
      else if Z.even below then Some below else Some above
  end.

Fixpoint shortest (fuel : nat) (m : positive) (e : Z) (n k : Z) : Z * Z :=
  match fuel with
  | O => (0, n)%Z
  | S fuel' =>
      match candidate m e n k with
      | Some s => if (s =? 10 ^ k)%Z then (10 ^ (k - 1), n + 1)%Z else (s, n)
      | None => shortest fuel' m e n (k + 1)%Z
      end
  end.

(** Number::toString, steps 6 to 10: the digits [ds] laid out for the
    decimal exponent [n]. *)
Definition layout (ds : string) (n : Z) : string :=
  let k := Z.of_nat (String.length ds) in
  if (k <=? n)%Z && (n <=? 21)%Z then
    ds ++ zeros (Z.to_nat (n - k))
  else if (0 <? n)%Z && (n <=? 21)%Z then
    substring 0 (Z.to_nat n) ds ++ "." ++
    substring (Z.to_nat n) (Z.to_nat (k - n)) ds
  else if (-6 <? n)%Z && (n <=? 0)%Z then
    "0." ++ zeros (Z.to_nat (- n)) ++ ds
  else
    let ex := (n - 1)%Z in
    let sign := if (ex <? 0)%Z then "-" else "+" in
    let mant := if (k =? 1)%Z then ds
                else substring 0 1 ds ++ "." ++ substring 1 (Z.to_nat (k - 1)) ds in
    mant ++ "e" ++ sign ++ digits (Z.abs ex).

(** Number::toString (radix 10): what a template literal inserts for a
    number. *)
Definition Number_toString (x : Number) : string :=
  match Prim2SF x with
  | S754_nan => "NaN"
  | S754_zero _ => "0"
  | S754_infinity s => if s then "-Infinity" else "Infinity"
  | S754_finite s m e =>
      let '(un, ud) := pow 2 e in
      let n := decimal_exponent 640 (Z.pos m * un) ud (-324) in
      let '(d, n') := shortest 17 m e n 1 in
      (if s then "-" else "") ++ layout (digits d) n'
  end.

(** [Number.prototype.toFixed(2)]. *)
Definition toFixed_2 (x : Number) : string :=
  match Prim2SF x with
  | S754_finite s m e =>
      if (1e21 <=? Math_abs x)%float then Number_toString x
      else
        let n := if (0 <=? e)%Z then (Z.pos m * 2 ^ e * 100)%Z
                 else ((200 * Z.pos m + 2 ^ (- e)) / (2 * 2 ^ (- e)))%Z in
        let ds := padStart0 3 (digits n) in
        let k := String.length ds in
        (if s then "-" else "") ++
        substring 0 (k - 2) ds ++ "." ++ substring (k - 2) 2 ds
  | S754_zero _ => "0.00"
  | _ => Number_toString x
  end.

(** ** Dates

    A [Date] holds a time value: milliseconds since 1970-01-01T00:00:00Z,
    within +-8.64e15, or none (Invalid Date).  The calendar functions are
    ECMA-262's (21.4.1), in UTC. *)

Inductive Date : Type :=
| TimeValue (t : Z)
| InvalidDate.

Definition msPerDay : Z := 86400000.
Definition maxTime : Z := 8640000000000000.

Definition Day (t : Z) : Z := (t / msPerDay)%Z.
Definition TimeWithinDay (t : Z) : Z := (t mod msPerDay)%Z.

Definition DayFromYear (y : Z) : Z :=
  (365 * (y - 1970) + (y - 1969) / 4 - (y - 1901) / 100 + (y - 1601) / 400)%Z.

Definition TimeFromYear (y : Z) : Z := (msPerDay * DayFromYear y)%Z.

(** The largest [y] with [TimeFromYear y <= t]: one of the three years
    around the estimate by the mean year length (146097 days in 400
    years). *)
Definition YearFromTime (t : Z) : Z :=
  let y := (1970 + (Day t * 400) / 146097)%Z in
  if (DayFromYear (y + 1) <=? Day t)%Z then (y + 1)%Z
  else if (DayFromYear y <=? Day t)%Z then y
  else (y - 1)%Z.

Definition InLeapYear (t : Z) : Z :=
  let y := YearFromTime t in
  if ((y mod 4 =? 0) && (negb (y mod 100 =? 0) || (y mod 400 =? 0)))%Z
  then 1%Z else 0%Z.

Definition DayWithinYear (t : Z) : Z := (Day t - DayFromYear (YearFromTime t))%Z.

(** The month, 0 (January) to 11 (December). *)
Definition MonthFromTime (t : Z) : Z :=
  let d := DayWithinYear t in
  let leap := InLeapYear t in
  if (d <? 31)%Z then 0
  else if (d <? 59 + leap)%Z then 1
  else if (d <? 90 + leap)%Z then 2
  else if (d <? 120 + leap)%Z then 3
  else if (d <? 151 + leap)%Z then 4
  else if (d <? 181 + leap)%Z then 5
  else if (d <? 212 + leap)%Z then 6
  else if (d <? 243 + leap)%Z then 7
  else if (d <? 273 + leap)%Z then 8
  else if (d <? 304 + leap)%Z then 9
  else if (d <? 334 + leap)%Z then 10
  else 11.

Definition DateFromTime (t : Z) : Z :=
  let d := DayWithinYear t in
  let leap := InLeapYear t in
  match MonthFromTime t with
  | 0 => d + 1
  | 1 => d - 30
  | 2 => d - 58 - leap
  | 3 => d - 89 - leap
  | 4 => d - 119 - leap
  | 5 => d - 150 - leap
  | 6 => d - 180 - leap
  | 7 => d - 211 - leap
  | 8 => d - 242 - leap
  | 9 => d - 272 - leap
  | 10 => d - 303 - leap
  | _ => d - 333 - leap
  end%Z.

Definition HourFromTime (t : Z) : Z := ((t / 3600000) mod 24)%Z.
Definition MinFromTime (t : Z) : Z := ((t / 60000) mod 60)%Z.
Definition SecFromTime (t : Z) : Z := ((t / 1000) mod 60)%Z.
Definition msFromTime (t : Z) : Z := (t mod 1000)%Z.

Definition pad (k : nat) (n : Z) : string := padStart0 k (digits n).

(** The year of the ISO format: four digits from 0 to 9999, otherwise a
    sign and six digits. *)
Definition isoYear (y : Z) : string :=
  if (0 <=? y)%Z && (y <=? 9999)%Z then pad 4 y
  else (if (y <? 0)%Z then "-" else "+") ++ pad 6 (Z.abs y).

(** [Date.prototype.toISOString]: YYYY-MM-DDTHH:mm:ss.sssZ; a RangeError on
    an invalid date. *)
Definition Date_toISOString (d : Date) : completion string :=
  match d with
  | TimeValue t =>
      if (Z.abs t <=? maxTime)%Z then
        Ok (isoYear (YearFromTime t) ++ "-" ++ pad 2 (MonthFromTime t + 1) ++
            "-" ++ pad 2 (DateFromTime t) ++
            "T" ++ pad 2 (HourFromTime t) ++ ":" ++ pad 2 (MinFromTime t) ++
            ":" ++ pad 2 (SecFromTime t) ++ "." ++ pad 3 (msFromTime t) ++ "Z")
      else Throw (RangeError "Invalid time value")
  | InvalidDate => Throw (RangeError "Invalid time value")
  end.

(** [new Date(Date.UTC(year, monthIndex, day))], for building dates. *)
Definition Date_UTC (year monthIndex day : Z) : Date :=
  let leap := if ((year mod 4 =? 0) &&
                  (negb (year mod 100 =? 0) || (year mod 400 =? 0)))%Z
              then 1%Z else 0%Z in
  let before :=
    match monthIndex with
    | 0 => 0 | 1 => 31 | 2 => 59 + leap | 3 => 90 + leap | 4 => 120 + leap
    | 5 => 151 + leap | 6 => 181 + leap | 7 => 212 + leap | 8 => 243 + leap
    | 9 => 273 + leap | 10 => 304 + leap | _ => 334 + leap
    end%Z in
  TimeValue (msPerDay * (DayFromYear year + before + day - 1))%Z.

(** ** Arrays *)

(** [Array.prototype.slice(i, j)] for [0 <= i], and [slice(-k)]. *)
Definition Array_slice {A} (i j : nat) (l : list A) : list A :=
  firstn (j - i) (skipn i l).

Definition Array_slice_last {A} (k : nat) (l : list A) : list A :=
  skipn (List.length l - k) l.

(** [Array.prototype.sort()] on strings: ascending by code units. *)
Fixpoint sort_insert (x : string) (l : list string) : list string :=
  match l with
  | [] => [x]
  | y :: l' => if String.leb x y then x :: l else y :: sort_insert x l'
  end.

Definition Array_sort (l : list string) : list string :=
  fold_right sort_insert [] l.

(** ** Plain objects used as maps

    The own properties of an object created by [{}], each key once, in
    creation order.  The prototype chain is not modelled: a key that names
    an inherited property ([constructor], [__proto__]) is outside this
    model; month keys never are. *)

Definition Obj (V : Type) : Type := list (string * V).

Fixpoint Obj_get {V} (o : Obj V) (k : string) : option V :=
  match o with
  | [] => None
  | (k', v) :: o' => if String.eqb k k' then Some v else Obj_get o' k
  end.

(** [o[k] = v]: an existing property keeps its place, a new one goes last. *)
Fixpoint Obj_set {V} (o : Obj V) (k : string) (v : V) : Obj V :=
  match o with
  | [] => [(k, v)]
  | (k', v') :: o' =>
      if String.eqb k k' then (k', v) :: o' else (k', v') :: Obj_set o' k v
  end.

(** Array indices: the canonical decimal strings of 0 to 2^32 - 2.
    [Object.keys] lists them first, in ascending numeric order, then the
    other keys in creation order. *)
Definition is_digit (c : ascii) : bool :=
  (48 <=? nat_of_ascii c)%nat && (nat_of_ascii c <=? 57)%nat.

Fixpoint decimal_value (s : string) (acc : Z) : option Z :=
  match s with
  | EmptyString => Some acc
  | String c s' =>
      if is_digit c
      then decimal_value s' (10 * acc + Z.of_nat (nat_of_ascii c - 48))%Z
      else None
  end.

Definition arrayIndex (s : string) : option Z :=
  match s with
  | EmptyString => None
  | String c s' =>
      if Ascii.eqb c "0" && negb (String.eqb s' "") then None
      else match decimal_value s 0 with
           | Some v => if (v <=? 4294967294)%Z then Some v else None
           | None => None
           end
  end.

Fixpoint index_insert (x : Z * string) (l : list (Z * string)) : list (Z * string) :=
  match l with
  | [] => [x]
  | y :: l' => if (fst x <=? fst y)%Z then x :: l else y :: index_insert x l'
  end.

Fixpoint index_keys (ks : list string) : list (Z * string) :=
  match ks with
  | [] => []
  | k :: ks' =>
      match arrayIndex k with
      | Some i => index_insert (i, k) (index_keys ks')
      | None => index_keys ks'
      end
  end.

Definition Object_keys {V} (o : Obj V) : list string :=
  let ks := map fst o in
  (map snd (index_keys ks) ++
   filter (fun k => match arrayIndex k with Some _ => false | None => true end) ks)%list.

(** ** Text of a request body: sequences of UTF-16 code units *)

Definition Text : Type := list N.

(** The code units of an ASCII literal. *)
Definition text (s : string) : Text := map N_of_ascii (list_ascii_of_string s).

(** WhiteSpace and LineTerminator (ECMA-262 12.2, 12.3): TAB, LF, VT, FF,
    CR, SP, NBSP, the space separators of Unicode (Zs), LS, PS and
    ZWNBSP. *)
Definition isWhiteSpace (c : N) : bool :=
  existsb (N.eqb c)
    [0x9; 0xA; 0xB; 0xC; 0xD; 0x20; 0xA0; 0x1680;
     0x2000; 0x2001; 0x2002; 0x2003; 0x2004; 0x2005; 0x2006; 0x2007;
     0x2008; 0x2009; 0x200A; 0x2028; 0x2029; 0x202F; 0x205F; 0x3000;
     0xFEFF]%N.

Fixpoint trimStart (s : Text) : Text :=
  match s with
  | c :: s' => if isWhiteSpace c then trimStart s' else s
  | [] => []
  end.

Definition trimEnd (s : Text) : Text := rev (trimStart (rev s)).

(** [String.prototype.trim]. *)
Definition String_trim (s : Text) : Text := trimEnd (trimStart s).

(** [s.replace(/[<>]/g, '')]: every [<] (60) and [>] (62) removed. *)
Definition isAngle (c : N) : bool := ((c =? 60) || (c =? 62))%N.

Definition String_replace_angle (s : Text) : Text :=
  filter (fun c => negb (isAngle c)) s.

(** ** Values of a parsed JSON body *)

Set Warnings "-register-all".

Inductive Value : Type :=
| VNull
| VBoolean (b : bool)
| VNumber (x : Number)
| VString (s : Text)
| VArray (items : list Value)
| VObject (props : list (string * Value)).

(** ToBoolean. *)
Definition ToBoolean (v : Value) : bool :=
  match v with
  | VNull => false
  | VBoolean b => b
  | VNumber x => truthy x
  | VString s => match s with [] => false | _ => true end
  | VArray _ | VObject _ => true
  end.

(** The key of an array index. *)
Definition indexKey (i : nat) : string := digits (Z.of_nat i).

(** [Object.entries(v)]: the pairs [[key, v[key]]] for the keys of
    [Object.keys(v)].  An array lists its indices, a string its code units,
    a number or a boolean nothing. *)
Definition Object_entries (v : Value) : list (string * Value) :=
  match v with
  | VObject o =>
      flat_map (fun key => match Obj_get o key with
                           | Some x => [(key, x)]
                           | None => []
                           end)
               (Object_keys o)
  | VArray items => combine (map indexKey (seq 0 (List.length items))) items
  | VString s =>
      combine (map indexKey (seq 0 (List.length s))) (map (fun c => VString [c]) s)
  | VNull | VBoolean _ | VNumber _ => []
  end.

End JS.

(* ================================================================== *)
(** * The data model (the mongoose schemas of backend/server.js)       *)
(* ================================================================== *)

Module Transaction.
Record t : Type := mk {
  type : string;
  amount : JS.Number;
  category : string;
  description : option string;
  date : JS.Date
}.

(** [t.type === 'expense']. *)
Definition isExpense (x : t) : bool := String.eqb (type x) "expense".
End Transaction.

Module Budget.
Record t : Type := mk {
  category : string;
  amount : JS.Number;
  type : string
}.
End Budget.

(* ================================================================== *)
(** * backend/server.js                                                *)
(* ================================================================== *)

Module Server.
Import JS.
Local Open Scope float_scope.

Record MonthBucket : Type := { expenses : Number; income : Number }.

Record PredictionResult : Type := { prediction : Number; confidence : Number }.

Record Recommendation : Type := {
  category : string;
  message : string;
  priority : string
}.

Record AccuracyRecord : Type := {
  month : string;
  predicted : Number;
  actual : Number;
  accuracy : Number
}.

(** ** dataProcessor.validateTransaction *)

Definition validateTransaction (data : Transaction.t) : bool * list string :=
  let errors :=
    ((if negb (truthy (Transaction.amount data)) || (Transaction.amount data <=? 0)
      then ["Invalid amount"] else []) ++
     (if String.eqb (Transaction.category data) "" then ["Category is required"] else []) ++
     (if existsb (String.eqb (Transaction.type data)) ["income"; "expense"]
      then [] else ["Invalid type"]))%list in
  (match errors with [] => true | _ => false end, errors).

(** ** calculateAccuracy (lines 72-76) *)

Definition calculateAccuracy (predicted actual : Number) : Number :=
  if actual =? 0 then 0
  else
    let accuracy := (1 - Math_abs (predicted - actual) / actual) * 100 in
    Math_min 100 (Math_max 0 accuracy).

(** ** getMonthlyData (lines 78-89) *)

(** [new Date(d).toISOString().slice(0, 7)]. *)
Definition isoMonth (d : Date) : completion string :=
  iso <- Date_toISOString d ;; Ok (String_slice 0 7 iso).

Definition getMonthlyData_step (acc : Obj MonthBucket) (t : Transaction.t)
  : completion (Obj MonthBucket) :=
  monthYear <- isoMonth (Transaction.date t) ;;
  let acc :=
    match Obj_get acc monthYear with
    | Some _ => acc
    | None => Obj_set acc monthYear {| expenses := 0; income := 0 |}
    end in
  match Obj_get acc monthYear with
  | Some b =>
      if Transaction.isExpense t
      then Ok (Obj_set acc monthYear
                 {| expenses := expenses b + Transaction.amount t; income := income b |})
      else Ok (Obj_set acc monthYear
                 {| expenses := expenses b; income := income b + Transaction.amount t |})
  | None => Throw (TypeError "Cannot read properties of undefined")
  end.

Definition getMonthlyData (transactions : list Transaction.t)
  : completion (Obj MonthBucket) :=
  reduceM getMonthlyData_step transactions [].

(** ** calculateConfidence (lines 146-152) *)

Definition sum (data : list Number) : Number :=
  fold_left (fun a b => a + b) data 0.

Definition calculateConfidence (data : list Number) : Number :=
  if (List.length data <? 2)%nat then 0
  else
    let mean := sum data / of_nat (List.length data) in
    let variance :=
      fold_left (fun acc val => acc + Math_pow_2 (val - mean)) data 0
      / of_nat (List.length data) in
    let coefficientOfVariation := Math_sqrt variance / mean in
    Math_max 0 (Math_min 100 ((1 - coefficientOfVariation) * 100)).

(** [monthlyData[month].expenses]: a TypeError when the month has no
    bucket. *)
Definition expensesOf (monthlyData : Obj MonthBucket) (month : string)
  : completion Number :=
  match Obj_get monthlyData month with
  | Some b => Ok (expenses b)
  | None => Throw (TypeError "Cannot read properties of undefined")
  end.

(** ** mlUtils.predictNextMonthSpending (lines 93-105); [None] is [null] *)

Definition predictNextMonthSpending (transactions : list Transaction.t)
  : completion (option PredictionResult) :=
  if (List.length transactions <? 3)%nat then Ok None
  else
    monthlyData <- getMonthlyData transactions ;;
    let months := Array_sort (Object_keys monthlyData) in
    let recentMonths := Array_slice_last 3 months in
    recentExpenses <- mapM (expensesOf monthlyData) recentMonths ;;
    let prediction := sum recentExpenses / 3 in
    let confidence := calculateConfidence recentExpenses in
    Ok (Some {| prediction := prediction; confidence := confidence |}).

(** ** mlUtils.generateRecommendations (lines 107-143)

    [now] is what [new Date()] returns at line 109. *)

Definition inCurrentMonth (budget : Budget.t) (currentMonth : string)
  (t : Transaction.t) : completion bool :=
  if String.eqb (Transaction.category t) (Budget.category budget)
     && Transaction.isExpense t
  then m <- isoMonth (Transaction.date t) ;; Ok (String.eqb m currentMonth)
  else Ok false.

Definition overspendMessage (category : string) (overspend : Number) : string :=
  "Reduce spending in " ++ category ++ " by $" ++ toFixed_2 overspend.

(** One turn of the loop over the budgets (lines 114-130). *)
Definition budgetStep (currentMonth : string) (transactions : list Transaction.t)
  (recommendations : list Recommendation) (budget : Budget.t)
  : completion (list Recommendation) :=
  categoryTransactions <- filterM (inCurrentMonth budget currentMonth) transactions ;;
  let categorySpending :=
    fold_left (fun sum t => sum + Transaction.amount t) categoryTransactions 0 in
  if Budget.amount budget <? categorySpending
  then Ok (recommendations ++
           [{| category := Budget.category budget;
               message := overspendMessage (Budget.category budget)
                            (categorySpending - Budget.amount budget);
               priority := "high" |}])%list
  else Ok recommendations.

Definition budgetLoop (currentMonth : string) (transactions : list Transaction.t)
  (budgets : list Budget.t) : completion (list Recommendation) :=
  reduceM (budgetStep currentMonth transactions) budgets [].

(** Line 133 reads [months].  No binding of that name is in scope there:
    the function declares [monthlyData], [currentMonth], [currentSpending]
    and [recommendations], the module declares no [months], and the
    constants named [months] at lines 97 and 235 are local to other
    functions.  Evaluating the reference throws. *)
Definition months_at_line_133 : completion (list string) :=
  Throw (ReferenceError "months").

Definition generalRecommendation : Recommendation :=
  {| category := "general";
     message := "Overall spending is higher than last month. Consider reducing expenses.";
     priority := "medium" |}.

(** Lines 133-140, for the value [months] would have. *)
Definition generalStep (months : list string) (monthlyData : Obj MonthBucket)
  (currentSpending : Number) (recommendations : list Recommendation)
  : completion (list Recommendation) :=
  match (if (2 <=? List.length months)%nat
         then nth_error months (List.length months - 2) else None) with
  | Some prevMonth =>
      if String.eqb prevMonth "" then Ok recommendations
      else
        e <- expensesOf monthlyData prevMonth ;;
        if e * 0x1.199999999999ap+0 <? currentSpending
        then Ok (recommendations ++ [generalRecommendation])%list
        else Ok recommendations
  | None => Ok recommendations
  end.

Definition generateRecommendations (now : Date) (transactions : list Transaction.t)
  (budgets : list Budget.t) : completion (list Recommendation) :=
  monthlyData <- getMonthlyData transactions ;;
  currentMonth <- isoMonth now ;;
  let currentSpending :=
    match Obj_get monthlyData currentMonth with
    | Some b => if truthy (expenses b) then expenses b else 0
    | None => 0
    end in
  recommendations <- budgetLoop currentMonth transactions budgets ;;
  months <- months_at_line_133 ;;
  generalStep months monthlyData currentSpending recommendations.

(** ** GET /api/accuracy (lines 231-269): the backtest over the fetched
    transactions *)

Record BacktestState : Type := {
  predictions : list AccuracyRecord;
  totalAccuracy : Number;
  predictionCount : nat
}.

Definition round2 (x : Number) : Number := Math_round (x * 100) / 100.

(** One turn of the loop at lines 242-259. *)
Definition backtestStep (monthlyData : Obj MonthBucket) (months : list string)
  (st : BacktestState) (i : nat) : completion BacktestState :=
  let prevThreeMonths := Array_slice (i - 3) i months in
  total <- reduceM (fun sum month =>
                      e <- expensesOf monthlyData month ;; Ok (sum + e))
                   prevThreeMonths 0 ;;
  let predicted := total / 3 in
  actual <- expensesOf monthlyData (nth i months "undefined") ;;
  let accuracy := calculateAccuracy predicted actual in
  Ok {| predictions :=
          (predictions st ++
           [{| month := nth i months "undefined";
               predicted := round2 predicted;
               actual := round2 actual;
               accuracy := round2 accuracy |}])%list;
        totalAccuracy := totalAccuracy st + accuracy;
        predictionCount := S (predictionCount st) |}.

Definition backtest (monthlyData : Obj MonthBucket) : completion BacktestState :=
  let months := Array_sort (Object_keys monthlyData) in
  reduceM (backtestStep monthlyData months)
          (seq 3 (List.length months - 3))
          {| predictions := []; totalAccuracy := 0; predictionCount := 0 |}.

Record AccuracyResponse : Type := {
  lastPredictions : list AccuracyRecord;
  averageAccuracy : Number;
  totalPredictions : nat
}.

Definition accuracyRoute (transactions : list Transaction.t)
  : completion AccuracyResponse :=
  monthlyData <- getMonthlyData transactions ;;
  st <- backtest monthlyData ;;
  Ok {| lastPredictions := Array_slice_last 3 (predictions st);
        averageAccuracy :=
          if (0 <? predictionCount st)%nat
          then Math_round (totalAccuracy st / of_nat (predictionCount st))
          else 0;
        totalPredictions := predictionCount st |}.

(** ** securityMiddleware (lines 10-22)

    The request body is [None] when there is none ([undefined]).  The
    headers of the response are kept under their lower-cased names, as
    [setHeader] stores them. *)

(** [s.trim().replace(/[<>]/g, '')]. *)
Definition sanitized (s : Text) : Text := String_replace_angle (String_trim s).

(** The callback of [forEach] (lines 14-16) on the key of an object. *)
Definition sanitizeKey (body : Obj Value) (key : string) : Obj Value :=
  match Obj_get body key with
  | Some (VString s) => Obj_set body key (VString (sanitized s))
  | _ => body
  end.

(** The same callback on an index of an array. *)
Definition sanitizeIndex (items : list Value) (i : nat) : list Value :=
  match nth_error items i with
  | Some (VString s) =>
      (firstn i items ++ VString (sanitized s) :: skipn (S i) items)%list
  | _ => items
  end.

(** Lines 13-17.  A number and a boolean have no keys; a string lists its
    indices, and the assignment to an index of a primitive string has no
    effect. *)
Definition sanitizeBody (body : Value) : Value :=
  match body with
  | VObject o => VObject (fold_left sanitizeKey (Object_keys o) o)
  | VArray items =>
      VArray (fold_left sanitizeIndex (seq 0 (List.length items)) items)
  | VNull | VBoolean _ | VNumber _ | VString _ => body
  end.

Definition securityMiddleware (body : option Value) (headers : Obj string)
  : option Value * Obj string :=
  (match body with
   | Some b => if ToBoolean b then Some (sanitizeBody b) else body
   | None => None
   end,
   Obj_set (Obj_set headers "x-content-type-options" "nosniff")
           "x-frame-options" "DENY").

(** ** The route handlers, from the fetched documents on

    [try { ... res.json(payload) } catch (error) {
       res.status(500).json({ message: error.message }) }]. *)

Inductive Reply (A : Type) : Type :=
| Json (status : nat) (payload : A)
| Failure (status : nat) (error : exn).
Arguments Json {A} status payload.
Arguments Failure {A} status error.

Definition respond {A} (c : completion A) : Reply A :=
  match c with
  | Ok payload => Json 200 payload
  | Throw error => Failure 500 error
  end.

(** GET /api/analysis (lines 212-228). *)
Record Analysis : Type := {
  analysisPrediction : option PredictionResult;
  analysisRecommendations : list Recommendation;
  monthlyTrends : Obj MonthBucket
}.

Definition analysisRoute (now : Date) (transactions : list Transaction.t)
  (budgets : list Budget.t) : Reply Analysis :=
  respond
    (prediction <- predictNextMonthSpending transactions ;;
     recommendations <- generateRecommendations now transactions budgets ;;
     trends <- getMonthlyData transactions ;;
     Ok {| analysisPrediction := prediction;
           analysisRecommendations := recommendations;
           monthlyTrends := trends |}).

(** GET /api/accuracy (lines 231-269). *)
Definition accuracyReply (transactions : list Transaction.t)
  : Reply AccuracyResponse :=
  respond (accuracyRoute transactions).

End Server.

(* ================================================================== *)
(** * backend/utils/mlModel.js                                         *)
(* ================================================================== *)

Module MlModel.
Import JS.
Local Open Scope float_scope.

(** [xValues.reduce((a, b, i) => a + b * yValues[i], 0)]. *)
Fixpoint reduce_indexed (f : Number -> Number -> nat -> Number)
  (l : list Number) (i : nat) (a : Number) : Number :=
  match l with
  | [] => a
  | b :: l' => reduce_indexed f l' (S i) (f a b i)
  end.

Definition slope (historicalData : list Transaction.t) : Number :=
  let xValues := map of_nat (seq 0 (List.length historicalData)) in
  let yValues := map Transaction.amount historicalData in
  let n := of_nat (List.length xValues) in
  let sumX := fold_left (fun a b => a + b) xValues 0 in
  let sumY := fold_left (fun a b => a + b) yValues 0 in
  let sumXY := reduce_indexed (fun a b i => a + b * nth i yValues nan) xValues 0 0 in
  let sumXX := fold_left (fun a b => a + b * b) xValues 0 in
  (n * sumXY - sumX * sumY) / (n * sumXX - sumX * sumX).

Definition intercept (historicalData : list Transaction.t) : Number :=
  let xValues := map of_nat (seq 0 (List.length historicalData)) in
  let yValues := map Transaction.amount historicalData in
  let n := of_nat (List.length xValues) in
  let sumX := fold_left (fun a b => a + b) xValues 0 in
  let sumY := fold_left (fun a b => a + b) yValues 0 in
  (sumY - slope historicalData * sumX) / n.

Definition calculateSpendingPrediction (historicalData : list Transaction.t) : Number :=
  let n := of_nat (List.length historicalData) in
  let nextPrediction := slope historicalData * (n + 1) + intercept historicalData in
  Math_max 0 (Math_round (nextPrediction * 100) / 100).

End MlModel.

(* ================================================================== *)
(** * backend/utils/recommendations.js                                 *)
(* ================================================================== *)

Module Recommendations.
Import JS.
Local Open Scope float_scope.

Record Advice : Type := { type : string; message : string }.

(** ** The accumulator of findTopExpenseCategory (lines 6-11)

    [acc] is created by [{}] and inherits from [Object.prototype].  Under
    the name of an inherited function [acc[k]] finds that function, not
    [undefined]: it is truthy, adding an amount to it gives a string (the
    text of the function followed by the amount), and the assignment makes
    that string an own property.  Under [__proto__] it finds
    [Object.prototype], the sum is again a string, and the assignment
    reaches the setter of [Object.prototype], which ignores a string: no
    property is created. *)

(** The function-valued properties of [Object.prototype], each with the
    name of its function. *)
Definition inheritedFunction (k : string) : option string :=
  if String.eqb k "constructor" then Some "Object"
  else if existsb (String.eqb k)
            ["__defineGetter__"; "__defineSetter__"; "hasOwnProperty";
             "__lookupGetter__"; "__lookupSetter__"; "isPrototypeOf";
             "propertyIsEnumerable"; "toString"; "valueOf"; "toLocaleString"]
  then Some k
  else None.

(** The names under which [{}] does not find [undefined]. *)
Definition inherited (k : string) : bool :=
  match inheritedFunction k with
  | Some _ => true
  | None => String.eqb k "__proto__"
  end.

(** [String(f)] for the built-in function named [name], as Node prints
    it. *)
Definition nativeFunction (name : string) : string :=
  "function " ++ name ++ "() { [native code] }".

(** What an own property of [acc] holds: a number, or the string
    [nativeFunction name ++ rest] that began as an inherited function. *)
Inductive Total : Type :=
| Sum (x : Number)
| Text (name rest : string).

Definition textOf (name rest : string) : string := nativeFunction name ++ rest.

(** [acc[curr.category] = (acc[curr.category] || 0) + curr.amount].  A
    string of [acc] is not empty, so it is truthy, and [+] appends the
    amount to it. *)
Definition addToCategory (acc : Obj Total) (curr : Transaction.t) : Obj Total :=
  let k := Transaction.category curr in
  let amount := Transaction.amount curr in
  if String.eqb k "__proto__" then acc
  else
    Obj_set acc k
      match Obj_get acc k with
      | Some (Sum v) => Sum ((if truthy v then v else 0) + amount)
      | Some (Text name rest) => Text name (rest ++ Number_toString amount)
      | None =>
          match inheritedFunction k with
          | Some name => Text name (Number_toString amount)
          | None => Sum (0 + amount)
          end
      end.

Definition categoryTotals (transactions : list Transaction.t) : Obj Total :=
  fold_left addToCategory (filter Transaction.isExpense transactions) [].

(** [x > y] on what [categoryTotals[a]] and [categoryTotals[b]] hold.  Two
    numbers compare as numbers and two strings by code units; a string next
    to a number is converted to a number and, being the text of a function,
    gives [NaN], as [undefined] does: the comparison is false. *)
Definition greater (x y : option Total) : bool :=
  match x, y with
  | Some (Sum a), Some (Sum b) => b <? a
  | Some (Text n r), Some (Text n' r') =>
      match String.compare (textOf n' r') (textOf n r) with
      | Lt => true
      | _ => false
      end
  | _, _ => false
  end.

(** [keys.reduce((a, b) => totals[a] > totals[b] ? a : b)]: no initial
    value, so an empty array throws. *)
Definition topOf (totals : Obj Total) (keys : list string) : completion string :=
  match keys with
  | [] => Throw (TypeError "Reduce of empty array with no initial value")
  | k :: ks =>
      Ok (fold_left (fun a b => if greater (Obj_get totals a) (Obj_get totals b)
                                then a else b)
                    ks k)
  end.

Definition findTopExpenseCategory (transactions : list Transaction.t)
  : completion string :=
  let totals := categoryTotals transactions in
  topOf totals (Object_keys totals).

Definition generateRecommendations (transactions : list Transaction.t)
  (monthlyBudget : Number) : completion Advice :=
  let totalSpent :=
    fold_left (fun acc curr => acc + Transaction.amount curr)
              (filter Transaction.isExpense transactions) 0 in
  let surplus := monthlyBudget - totalSpent in
  if 0 <? surplus then
    Ok {| type := "positive";
          message := "You have a surplus of $" ++ Number_toString surplus ++
                     ". Recommend: 70% to savings, 30% to emergency fund." |}
  else
    topExpenseCategory <- findTopExpenseCategory transactions ;;
    Ok {| type := "warning";
          message := "Over budget by $" ++ Number_toString (Math_abs surplus) ++
                     ". Consider reducing spending in " ++ topExpenseCategory ++ "." |}.

End Recommendations.

(* ================================================================== *)
(** * backend/middleware/security.js                                   *)
(* ================================================================== *)

Module Security.
Import JS.

(** What the sanitised body inherits from: [Object.prototype], as every
    object literal does at first, or what an assignment to [__proto__] has
    put in its place. *)
Inductive Prototype : Type :=
| ObjectPrototype
| NullPrototype
| PrototypeOf (v : Value).

Record Sanitized : Type := {
  prototype : Prototype;
  properties : Obj Value
}.

(** [typeof v === 'string' ? v.trim() : v]. *)
Definition trimmed (v : Value) : Value :=
  match v with
  | VString s => VString (String_trim s)
  | _ => v
  end.

(** [acc[key] = value] on the object under construction.  The key
    [__proto__] reaches the setter that [Object.prototype] provides: an
    object (or array) or [null] becomes the prototype, any other value is
    dropped, and no property is created.  Every other key becomes an own
    property. *)
Definition assign (acc : Sanitized) (key : string) (value : Value) : Sanitized :=
  if String.eqb key "__proto__" then
    match value with
    | VObject _ | VArray _ =>
        {| prototype := PrototypeOf value; properties := properties acc |}
    | VNull => {| prototype := NullPrototype; properties := properties acc |}
    | VBoolean _ | VNumber _ | VString _ => acc
    end
  else {| prototype := prototype acc;
          properties := Obj_set (properties acc) key value |}.

(** The body the next handler sees: the one received, or the rebuilt
    object. *)
Inductive Body : Type :=
| Received (body : option Value)
| Rebuilt (sanitized : Sanitized).

(** basicSecurity (lines 2-13). *)
Definition basicSecurity (body : option Value) : Body :=
  match body with
  | Some b =>
      if ToBoolean b
      then Rebuilt (fold_left (fun acc '(key, v) => assign acc key (trimmed v))
                              (Object_entries b)
                              {| prototype := ObjectPrototype; properties := [] |})
      else Received body
  | None => Received None
  end.

End Security.

(* ================================================================== *)
(** * backend/utils/dataProcessor.js                                   *)
(* ================================================================== *)

Module DataProcessor.
Import JS.
Local Open Scope float_scope.

Definition quote : string := String (ascii_of_nat 34) EmptyString.

Definition typeMessage : string :=
  "Type must be " ++ quote ++ "income" ++ quote ++ " or " ++
  quote ++ "expense" ++ quote ++ ".".

(** validateData (lines 13-22). *)
Definition validateData (data : Transaction.t) : bool * list string :=
  let errors :=
    ((if Transaction.amount data <=? 0
      then ["Amount must be greater than zero."] else []) ++
     (if existsb (String.eqb (Transaction.type data)) ["income"; "expense"]
      then []
      else [typeMessage]))%list in
  (match errors with [] => true | _ => false end, errors).

(** predictNextMonthSpending (lines 25-32). *)
Definition predictNextMonthSpending (transactions : list Transaction.t) : Number :=
  let last3Months :=
    fold_left (fun acc curr => acc + Transaction.amount curr)
              (Array_slice_last 3 (filter Transaction.isExpense transactions)) 0
    / 3 in
  Math_round (last3Months * 100) / 100.

End DataProcessor.

(* ================================================================== *)
(** * The vocabulary of the specification                              *)
(* ================================================================== *)

Module Spec.
Import JS.
Local Open Scope float_scope.

(** ** Validated input *)

(** A valid date whose ISO form starts with a four-digit year (0000 to
    9999), as the YYYY-MM month keys of the specification assume. *)
Definition validDate (d : Date) : Prop :=
  match d with
  | TimeValue ms => (Z.abs ms <= maxTime /\ 0 <= YearFromTime ms <= 9999)%Z
  | InvalidDate => False
  end.

Definition validTransaction (t : Transaction.t) : Prop :=
  validDate (Transaction.date t).

(** A positive amount, as the request validation demands. *)
Definition positiveAmount (t : Transaction.t) : Prop :=
  (0 <? Transaction.amount t) = true.

(** ** Calendar months and their keys *)

(** The calendar month (UTC) a date falls in: year and month index. *)
Definition calendarMonth (d : Date) : option (Z * Z) :=
  match d with
  | TimeValue ms => Some (YearFromTime ms, MonthFromTime ms)
  | InvalidDate => None
  end.

Definition monthOf (t : Transaction.t) : option (Z * Z) :=
  calendarMonth (Transaction.date t).

(** The months valid dates fall in. *)
Definition inRange (ym : Z * Z) : Prop :=
  (0 <= fst ym <= 9999 /\ 0 <= snd ym <= 11)%Z.

(** The YYYY-MM key of a calendar month. *)
Definition monthKey (ym : Z * Z) : string :=
  pad 4 (fst ym) ++ "-" ++ pad 2 (snd ym + 1).

(** Reading a YYYY-MM key back: the year and the month number. *)
Definition readKey (k : string) : option Z * option Z :=
  (decimal_value (substring 0 4 k) 0, decimal_value (substring 5 2 k) 0).

Definition month_eqb (a b : option (Z * Z)) : bool :=
  match a, b with
  | Some (y, m), Some (y', m') => (y =? y')%Z && (m =? m')%Z
  | None, None => true
  | _, _ => false
  end.

Definition month_eq_dec (a b : option (Z * Z)) : {a = b} + {a <> b}.
Proof. repeat decide equality. Defined.

(** ** Sums *)

(** The sum of the amounts of a list of transactions, added from 0 in list
    order. *)
Definition total (ts : list Transaction.t) : Number :=
  fold_left (fun a t => a + Transaction.amount t) ts 0.

(** The expense-type transactions of a calendar month, and the remaining
    transactions of that month. *)
Definition expensesIn (cm : option (Z * Z)) (ts : list Transaction.t) :=
  filter (fun t => month_eqb (monthOf t) cm && Transaction.isExpense t) ts.

Definition othersIn (cm : option (Z * Z)) (ts : list Transaction.t) :=
  filter (fun t => month_eqb (monthOf t) cm && negb (Transaction.isExpense t)) ts.

(** All the transactions of a calendar month. *)
Definition allIn (cm : option (Z * Z)) (ts : list Transaction.t) :=
  filter (fun t => month_eqb (monthOf t) cm) ts.

(** ** Forecast and backtest *)

(** The arithmetic mean of three monthly expenses, added from 0. *)
Definition mean3 (a b c : Number) : Number := (0 + a + b + c) / 3.

Definition clamp (lo hi x : Number) : Number := Math_min hi (Math_max lo x).

(** [clamp(0, 100, (1 - |predicted - actual| / actual) * 100)], and 0 when
    [actual] is 0. *)
Definition accuracyOf (predicted actual : Number) : Number :=
  if actual =? 0 then 0
  else clamp 0 100 ((1 - Math_abs (predicted - actual) / actual) * 100).

(** The ascending month keys of an aggregated history, and the expenses
    of the month at a position. *)
Definition sortedMonths (monthlyData : Obj Server.MonthBucket) : list string :=
  Array_sort (Object_keys monthlyData).

Definition expensesAt (monthlyData : Obj Server.MonthBucket) (j : nat) : Number :=
  match Obj_get monthlyData (nth j (sortedMonths monthlyData) "") with
  | Some b => Server.expenses b
  | None => nan
  end.

Definition ascending (l : list string) : Prop :=
  StronglySorted (fun a b => String.leb a b = true) l.

(** ** Per-budget recommendations *)

(** The expense transactions of a budget's category in a calendar month. *)
Definition inBudget (cm : option (Z * Z)) (budget : Budget.t) (t : Transaction.t)
  : bool :=
  String.eqb (Transaction.category t) (Budget.category budget)
  && Transaction.isExpense t && month_eqb (monthOf t) cm.

Definition categorySpending (cm : option (Z * Z)) (transactions : list Transaction.t)
  (budget : Budget.t) : Number :=
  total (filter (inBudget cm budget) transactions).

(** What one budget contributes: a high-priority recommendation when the
    month's spending in its category exceeds its amount, nothing
    otherwise. *)
Definition recommendationsFor (cm : option (Z * Z)) (transactions : list Transaction.t)
  (budget : Budget.t) : list Server.Recommendation :=
  if Budget.amount budget <? categorySpending cm transactions budget
  then [{| Server.category := Budget.category budget;
           Server.message :=
             "Reduce spending in " ++ Budget.category budget ++ " by $" ++
             toFixed_2 (categorySpending cm transactions budget - Budget.amount budget);
           Server.priority := "high" |}]
  else [].

(** ** Surplus mode *)

Definition inCategory (c : string) (t : Transaction.t) : bool :=
  String.eqb (Transaction.category t) c.

(** The total expense of a category: the amounts of its expense
    transactions, added from 0 in list order. *)
Definition categoryExpense (transactions : list Transaction.t) (c : string) : Number :=
  total (filter (inCategory c) (filter Transaction.isExpense transactions)).

Definition totalExpenses (transactions : list Transaction.t) : Number :=
  total (filter Transaction.isExpense transactions).

(** A category that does not bear the name of a property every object
    inherits. *)
Definition plainCategory (t : Transaction.t) : Prop :=
  Recommendations.inherited (Transaction.category t) = false.

(** The number under a key of the totals. *)
Definition totalAt (totals : Obj Recommendations.Total) (k : string) : Number :=
  match Obj_get totals k with
  | Some (Recommendations.Sum x) => x
  | _ => nan
  end.

(** The tie rule as the specification words it: the first key, in
    iteration order, whose total no key exceeds. *)
Definition firstHighest (totals : Obj Recommendations.Total) (keys : list string)
  : option string :=
  find (fun k => forallb (fun k' => totalAt totals k' <=? totalAt totals k) keys) keys.

End Spec.

(* ================================================================== *)
(** * Sample inputs                                                    *)
(* ================================================================== *)

Module Examples.
Import JS.
Local Open Scope float_scope.

Definition tx (ty : string) (a : Number) (c : string) (d : Date) : Transaction.t :=
  Transaction.mk ty a c None d.

Definition jan15 : Date := Date_UTC 2024 0 15.
Definition jan20 : Date := Date_UTC 2024 0 20.
Definition feb20 : Date := Date_UTC 2024 1 20.

(** Expenses of 100, 200, 300 in January, February, March 2024. *)
Definition janFebMar : list Transaction.t :=
  [ tx "expense" 100 "food" (Date_UTC 2024 0 15);
    tx "expense" 200 "food" (Date_UTC 2024 1 15);
    tx "expense" 300 "food" (Date_UTC 2024 2 15) ].

(** Four months of expenses: 100, 200, 300, 240. *)
Definition fourMonths : list Transaction.t :=
  [ tx "expense" 100 "food" (Date_UTC 2024 0 15);
    tx "expense" 200 "food" (Date_UTC 2024 1 15);
    tx "expense" 300 "food" (Date_UTC 2024 2 15);
    tx "expense" 240 "food" (Date_UTC 2024 3 15) ].

(** Three expenses, all in January 2024. *)
Definition oneMonthThree : list Transaction.t :=
  [ tx "expense" 100 "food" jan15; tx "expense" 200 "rent" jan15;
    tx "expense" 300 "fuel" jan15 ].

(** Three months with income only. *)
Definition incomeOnly : list Transaction.t :=
  [ tx "income" 100 "salary" (Date_UTC 2024 0 15);
    tx "income" 100 "salary" (Date_UTC 2024 1 15);
    tx "income" 100 "salary" (Date_UTC 2024 2 15) ].

(** Amounts 10, 20, 30 in chronological order. *)
Definition tenTwentyThirty : list Transaction.t :=
  [ tx "expense" 10 "food" (Date_UTC 2024 0 15);
    tx "expense" 20 "food" (Date_UTC 2024 1 15);
    tx "expense" 30 "food" (Date_UTC 2024 2 15) ].

(** A food budget of 100 and 150 spent on food in January 2024. *)
Definition foodBudget : Budget.t := Budget.mk "food" 100 "expense".
Definition overspentFood : list Transaction.t := [ tx "expense" 150 "food" jan15 ].

(** 100 spent in January, 200 in February 2024, newest first. *)
Definition risingSpending : list Transaction.t :=
  [ tx "expense" 200 "food" (Date_UTC 2024 1 10); tx "expense" 100 "food" jan15 ].

(** Expenses of 600 against a monthly budget of 500. *)
Definition overBudget : list Transaction.t :=
  [ tx "expense" 400 "food" jan15; tx "expense" 200 "rent" jan15;
    tx "income" 900 "salary" jan15 ].

(** Two categories with the same total. *)
Definition tiedExpenses : list Transaction.t :=
  [ tx "expense" 300 "food" jan15; tx "expense" 300 "rent" jan15 ].

(** Two dates of the year 10000, in January and in February. *)
Definition year10000 : list Transaction.t :=
  [ tx "expense" 1 "food" (Date_UTC 10000 0 15);
    tx "expense" 2 "food" (Date_UTC 10000 1 15) ].

(** An expense of 0.1, an income of 0.1 and an expense of 0.4, all in
    January 2024. *)
Definition splitRounding : list Transaction.t :=
  [ tx "expense" 0.1 "food" jan15; tx "income" 0.1 "salary" jan15;
    tx "expense" 0.4 "rent" jan15 ].


(** One expense of 600 under the category [__proto__]. *)
Definition protoExpense : list Transaction.t :=
  [ tx "expense" 600 "__proto__" jan15 ].

(** A request body with markup, blanks and a [__proto__] key. *)
Definition postedBody : Obj Value :=
  [ ("category", VString (text "  <b>Food</b> "));
    ("amount", VNumber 12);
    ("__proto__", VObject [("isAdmin", VBoolean true)]);
    ("tags", VArray [VString (text " <x> ")]) ].

End Examples.

(* ================================================================== *)
(** * Definitions the proofs use                                       *)
(* ================================================================== *)

Module Aux.
Import JS Spec.
Local Open Scope float_scope.

(** ** Checked tables of the zero-padded decimal forms *)

Definition year_ok (y : Z) : bool :=
  (String.length (pad 4 y) =? 4)%nat &&
  match decimal_value (pad 4 y) 0 with Some y' => (y' =? y)%Z | None => false end.

Definition month_ok (m : Z) : bool :=
  (String.length (pad 2 (m + 1)) =? 2)%nat &&
  match decimal_value (pad 2 (m + 1)) 0 with
  | Some m' => (m' =? m + 1)%Z
  | None => false
  end.

Fixpoint all_below (n : nat) (p : Z -> bool) : bool :=
  match n with
  | O => true
  | S n' => p (Z.of_nat n') && all_below n' p
  end.

(** ** Aggregation, one transaction at a time *)

Definition zeroBucket : Server.MonthBucket :=
  {| Server.expenses := 0; Server.income := 0 |}.

Definition credit (b : Server.MonthBucket) (t : Transaction.t) : Server.MonthBucket :=
  if Transaction.isExpense t
  then {| Server.expenses := Server.expenses b + Transaction.amount t;
          Server.income := Server.income b |}
  else {| Server.expenses := Server.expenses b;
          Server.income := Server.income b + Transaction.amount t |}.

Definition bucketOr (ob : option Server.MonthBucket) : Server.MonthBucket :=
  match ob with Some b => b | None => zeroBucket end.

Definition hasKey (k : string) (t : Transaction.t) : bool :=
  match Server.isoMonth (Transaction.date t) with
  | Ok k' => String.eqb k' k
  | Throw _ => false
  end.

Definition keyOfMonth (cm : option (Z * Z)) : string :=
  match cm with Some ym => monthKey ym | None => "" end.

(** ** The record the backtest emits for position [i] *)

Definition recordAt (monthlyData : Obj Server.MonthBucket) (i : nat)
  : Server.AccuracyRecord :=
  let e := expensesAt monthlyData in
  let predicted := mean3 (e (i - 3)%nat) (e (i - 2)%nat) (e (i - 1)%nat) in
  {| Server.month := nth i (sortedMonths monthlyData) "";
     Server.predicted := Server.round2 predicted;
     Server.actual := Server.round2 (e i);
     Server.accuracy := Server.round2 (accuracyOf predicted (e i)) |}.

(** ** Non-negative numbers: [+0], the positive finite numbers, [+Infinity] *)

Definition sf_nonneg (x : spec_float) : bool :=
  match x with
  | S754_zero false | S754_finite false _ _ | S754_infinity false => true
  | _ => false
  end.

Definition nonneg (x : Number) : bool := sf_nonneg (Prim2SF x).

(** The property [k] of the totals is absent or holds a non-negative
    number. *)
Definition sumAt (o : Obj Recommendations.Total) (k : string) : Prop :=
  match Obj_get o k with
  | Some (Recommendations.Sum v) => nonneg v = true
  | Some (Recommendations.Text _ _) => False
  | None => True
  end.

Definition valueOr0 (ov : option Recommendations.Total) : Number :=
  match ov with Some (Recommendations.Sum v) => v | _ => 0 end.

(** ** Finite numbers other than zero *)

Definition finiteNonzero (x : Number) : bool :=
  match Prim2SF x with
  | S754_finite _ _ _ => true
  | _ => false
  end.

(** ** Chronological order of calendar months, and of their keys *)

Definition monthLt (a b : Z * Z) : Prop :=
  (fst a < fst b \/ (fst a = fst b /\ snd a < snd b))%Z.

(** The calendar month a YYYY-MM key stands for. *)
Definition monthOfKey (k : string) : Z * Z :=
  match readKey k with
  | (Some y, Some m) => (y, m - 1)%Z
  | _ => (0, 0)%Z
  end.

(** The zero-padded form of [n] sorts before the one of [n + 1]. *)
Definition pad_ascends (k : nat) (n : Z) : bool :=
  match String.compare (pad k n) (pad k (n + 1)) with
  | Lt => true
  | _ => false
  end.

(** ** Dates that have a time value in range *)

Definition validTime (d : Date) : bool :=
  match d with
  | TimeValue t => (Z.abs t <=? maxTime)%Z
  | InvalidDate => false
  end.

Definition datedValidly (t : Transaction.t) : bool := validTime (Transaction.date t).

(** ** The score the backtest gives position [i] *)

Definition scoreAt (monthlyData : Obj Server.MonthBucket) (i : nat) : Number :=
  let e := expensesAt monthlyData in
  Server.calculateAccuracy (mean3 (e (i - 3)%nat) (e (i - 2)%nat) (e (i - 1)%nat)) (e i).

(** ** Request bodies *)

(** What securityMiddleware makes of one value of the body. *)
Definition sanitizeValue (v : Value) : Value :=
  match v with
  | VString s => VString (Server.sanitized s)
  | _ => v
  end.

(** The prototype an assignment of [v] to [__proto__] leaves, [p] being
    the one before. *)
Definition prototypeAfter (p : Security.Prototype) (v : Value) : Security.Prototype :=
  match v with
  | VObject _ | VArray _ => Security.PrototypeOf v
  | VNull => Security.NullPrototype
  | VBoolean _ | VNumber _ | VString _ => p
  end.

Definition notProto (key : string) : bool := negb (String.eqb key "__proto__").

End Aux.

(* ================================================================== *)
(** * The runtime: facts the proofs rest on                            *)
(* ================================================================== *)

Unset Implicit Arguments.
Import JS Spec Examples Aux Server.
Local Open Scope float_scope.

(* ------------------------------------------------------------------ *)
(** ** Objects *)
(* ------------------------------------------------------------------ *)

Section ObjFacts.
Variable V : Type.
Implicit Types (o : Obj V) (k : string) (v : V).

Lemma Obj_get_set_same o k v : Obj_get (Obj_set o k v) k = Some v.
Proof.
  induction o as [|[k' v'] o IH]; simpl.
  - now rewrite String.eqb_refl.
  - destruct (String.eqb k k') eqn:E; simpl; rewrite E; auto.
Qed.

Lemma Obj_get_set_other o k k' v :
  k <> k' -> Obj_get (Obj_set o k v) k' = Obj_get o k'.
Proof.
  intros Hne. induction o as [|[k0 v0] o IH]; simpl.
  - destruct (String.eqb k' k) eqn:E; auto.
    apply String.eqb_eq in E. congruence.
  - destruct (String.eqb k k0) eqn:E; simpl.
    + apply String.eqb_eq in E. subst k0.
      destruct (String.eqb k' k) eqn:E'; auto.
      apply String.eqb_eq in E'. congruence.
    + now rewrite IH.
Qed.

Lemma Obj_set_set o k v1 v2 : Obj_set (Obj_set o k v1) k v2 = Obj_set o k v2.
Proof.
  induction o as [|[k' v'] o IH]; simpl.
  - now rewrite String.eqb_refl.
  - destruct (String.eqb k k') eqn:E; simpl; rewrite E; congruence.
Qed.

Lemma Obj_get_In o k : In k (map fst o) <-> Obj_get o k <> None.
Proof.
  induction o as [|[k' v'] o IH]; simpl.
  - tauto.
  - destruct (String.eqb k k') eqn:E.
    + apply String.eqb_eq in E. subst. split; [discriminate | auto].
    + apply String.eqb_neq in E. rewrite <- IH. split; [intros [H|H]; congruence || auto | auto].
Qed.

Lemma Obj_keys_set_present o k v :
  Obj_get o k <> None -> map fst (Obj_set o k v) = map fst o.
Proof.
  induction o as [|[k' v'] o IH]; simpl; [congruence|].
  destruct (String.eqb k k') eqn:E; simpl; intros H.
  - reflexivity.
  - now rewrite IH.
Qed.

Lemma Obj_keys_set_absent o k v :
  Obj_get o k = None -> map fst (Obj_set o k v) = (map fst o ++ [k])%list.
Proof.
  induction o as [|[k' v'] o IH]; simpl; [reflexivity|].
  destruct (String.eqb k k') eqn:E; simpl; intros H.
  - discriminate.
  - now rewrite IH.
Qed.

Lemma Obj_keys_set_NoDup o k v :
  NoDup (map fst o) -> NoDup (map fst (Obj_set o k v)).
Proof.
  intros H. destruct (Obj_get o k) eqn:E.
  - rewrite Obj_keys_set_present by congruence. assumption.
  - rewrite Obj_keys_set_absent by assumption.
    apply NoDup_app; [assumption | constructor; [simpl; tauto | constructor] | ].
    intros x Hx [<-|[]]. apply Obj_get_In in Hx. congruence.
Qed.

Lemma Obj_set_length o k v :
  List.length (Obj_set o k v) =
  match Obj_get o k with Some _ => List.length o | None => S (List.length o) end.
Proof.
  induction o as [|[k' v'] o IH]; simpl; [reflexivity|].
  destruct (String.eqb k k'); simpl; [reflexivity|].
  rewrite IH. now destruct (Obj_get o k).
Qed.

End ObjFacts.

(* ------------------------------------------------------------------ *)
(** ** Object.keys and Array.prototype.sort rearrange, and sort ascending *)
(* ------------------------------------------------------------------ *)

Lemma index_insert_perm x l : Permutation (index_insert x l) (x :: l).
Proof.
  induction l as [|y l IH]; simpl; [reflexivity|].
  destruct (fst x <=? fst y)%Z; [reflexivity|].
  rewrite IH. apply perm_swap.
Qed.

Lemma Object_keys_perm (V : Type) (o : Obj V) :
  Permutation (Object_keys o) (map fst o).
Proof.
  unfold Object_keys. generalize (map fst o) as ks. clear o.
  induction ks as [|k ks IH]; simpl; [reflexivity|].
  destruct (arrayIndex k) as [i|]; simpl.
  - rewrite (Permutation_map snd (index_insert_perm (i, k) (index_keys ks))).
    simpl. now constructor.
  - rewrite <- Permutation_middle. now constructor.
Qed.

Lemma Object_keys_In (V : Type) (o : Obj V) k :
  In k (Object_keys o) <-> Obj_get o k <> None.
Proof.
  rewrite <- Obj_get_In. split; apply Permutation_in;
    [apply Object_keys_perm | symmetry; apply Object_keys_perm].
Qed.

Lemma sort_insert_perm x l : Permutation (sort_insert x l) (x :: l).
Proof.
  induction l as [|y l IH]; simpl; [reflexivity|].
  destruct (String.leb x y); [reflexivity|].
  rewrite IH. apply perm_swap.
Qed.

Lemma Array_sort_perm l : Permutation (Array_sort l) l.
Proof.
  induction l as [|x l IH]; simpl; [reflexivity|].
  rewrite sort_insert_perm. now constructor.
Qed.

Lemma Array_sort_length l : List.length (Array_sort l) = List.length l.
Proof. apply Permutation_length, Array_sort_perm. Qed.

Lemma String_compare_as_OT a b :
  String.compare a b = OrdersEx.String_as_OT.compare a b.
Proof.
  revert b. induction a as [|c a IH]; destruct b as [|d b]; simpl; auto.
Qed.

Lemma String_leb_trans a b c :
  String.leb a b = true -> String.leb b c = true -> String.leb a c = true.
Proof.
  unfold String.leb.
  rewrite (String_compare_as_OT a b), (String_compare_as_OT b c),
    (String_compare_as_OT a c).
  destruct (OrdersEx.String_as_OT.compare_spec a b) as [->|Hab|Hab]; try discriminate;
  destruct (OrdersEx.String_as_OT.compare_spec b c) as [<-|Hbc|Hbc]; try discriminate;
  intros _ _; try reflexivity.
  - unfold OrdersEx.String_as_OT.lt in Hab. now rewrite Hab.
  - assert (H : OrdersEx.String_as_OT.lt a c)
      by (eapply OrdersEx.String_as_OT.lt_strorder; eassumption).
    unfold OrdersEx.String_as_OT.lt in H. now rewrite H.
Qed.

Lemma sort_insert_sorted x l : ascending l -> ascending (sort_insert x l).
Proof.
  unfold ascending. induction 1 as [|y l Hs IH Hall]; simpl.
  - repeat constructor.
  - destruct (String.leb x y) eqn:E.
    + constructor; [now constructor|]. constructor; [assumption|].
      eapply Forall_impl; [|exact Hall]. intros z Hz.
      eapply String_leb_trans; eassumption.
    + constructor; [assumption|].
      assert (Hyx : String.leb y x = true)
        by (destruct (String.leb_total x y); congruence).
      eapply Permutation_Forall; [symmetry; apply sort_insert_perm|].
      now constructor.
Qed.

Lemma Array_sort_sorted l : ascending (Array_sort l).
Proof.
  induction l as [|x l IH]; simpl; [constructor | now apply sort_insert_sorted].
Qed.

(* ------------------------------------------------------------------ *)
(** ** Slices and filters *)
(* ------------------------------------------------------------------ *)

Lemma Array_slice_three {A} (l : list A) (i : nat) (d : A) :
  (3 <= i < List.length l)%nat ->
  Array_slice (i - 3) i l = [nth (i - 3) l d; nth (i - 2) l d; nth (i - 1) l d].
Proof.
  intros Hi. unfold Array_slice.
  replace (i - (i - 3))%nat with 3%nat by lia.
  remember (i - 3)%nat as j eqn:Ej.
  replace (i - 2)%nat with (S j) by lia. replace (i - 1)%nat with (S (S j)) by lia.
  assert (Hj : (j + 3 <= List.length l)%nat) by lia. clear Ej Hi.
  revert l Hj. induction j as [|j IH]; intros l Hj.
  - destruct l as [|a [|b [|c l]]]; simpl in *; try lia. reflexivity.
  - destruct l as [|a l]; simpl in *; [lia|]. apply IH. lia.
Qed.

Lemma Array_slice_last_three {A} (l : list A) (d : A) :
  (3 <= List.length l)%nat ->
  Array_slice_last 3 l =
  [nth (List.length l - 3) l d; nth (List.length l - 2) l d; nth (List.length l - 1) l d].
Proof.
  intros H. unfold Array_slice_last.
  remember (List.length l - 3)%nat as j eqn:Ej.
  replace (List.length l - 2)%nat with (S j) by lia.
  replace (List.length l - 1)%nat with (S (S j)) by lia.
  assert (Hj : List.length l = (j + 3)%nat) by lia. clear Ej H.
  revert l Hj. induction j as [|j IH]; intros l Hj.
  - destruct l as [|a [|b [|c [|x l]]]]; simpl in *; try lia. reflexivity.
  - destruct l as [|a l]; simpl in *; [lia|]. apply IH. lia.
Qed.

Lemma In_skipn {A} (x : A) n l : In x (skipn n l) -> In x l.
Proof.
  revert l. induction n as [|n IH]; intros [|a l]; simpl; auto.
Qed.

Lemma filter_filter {A} (p q : A -> bool) l :
  filter q (filter p l) = filter (fun x => p x && q x) l.
Proof.
  induction l as [|x l IH]; simpl; [reflexivity|].
  destruct (p x); simpl; [destruct (q x)|]; now rewrite IH.
Qed.

Lemma filter_nil_iff {A} (p : A -> bool) l :
  filter p l = [] <-> forall x, In x l -> p x = false.
Proof.
  induction l as [|x l IH]; simpl.
  - tauto.
  - destruct (p x) eqn:E.
    + split; [discriminate|]. intros H. specialize (H x (or_introl eq_refl)). congruence.
    + rewrite IH. split.
      * intros H y [<-|Hy]; auto.
      * intros H y Hy. auto.
Qed.

Lemma NoDup_map_inj {A B} (f : A -> B) (l : list A) :
  (forall x y, In x l -> In y l -> f x = f y -> x = y) ->
  NoDup l -> NoDup (map f l).
Proof.
  intros Hinj Hnd. induction Hnd as [|x l Hx Hnd IH]; simpl; constructor.
  - rewrite in_map_iff. intros (y & Hy & Hin).
    assert (y = x) by (apply Hinj; simpl; auto). subst. contradiction.
  - apply IH. intros; apply Hinj; simpl; auto.
Qed.

(* ------------------------------------------------------------------ *)
(** ** Strings *)
(* ------------------------------------------------------------------ *)

Lemma append_assoc (a b c : string) : (a ++ b) ++ c = a ++ (b ++ c).
Proof. induction a; simpl; congruence. Qed.

Lemma append_length (a b : string) :
  String.length (a ++ b) = (String.length a + String.length b)%nat.
Proof. induction a; simpl; congruence. Qed.

Lemma substring_prefix (a b : string) : substring 0 (String.length a) (a ++ b) = a.
Proof.
  induction a as [|c a IH]; simpl.
  - now destruct b.
  - now rewrite IH.
Qed.

Lemma substring_all (a : string) : substring 0 (String.length a) a = a.
Proof. induction a as [|c a IH]; simpl; congruence. Qed.

Lemma substring_suffix (a b : string) k :
  substring (String.length a) k (a ++ b) = substring 0 k b.
Proof. induction a as [|c a IH]; simpl; auto. Qed.

(* ------------------------------------------------------------------ *)
(** ** Dates *)
(* ------------------------------------------------------------------ *)

(** [YearFromTime] is ECMA-262's: the year starts no later than the day,
    and the next year starts after it. *)
Lemma YearFromTime_spec t :
  (DayFromYear (YearFromTime t) <= Day t < DayFromYear (YearFromTime t + 1))%Z.
Proof.
  unfold YearFromTime. generalize (Day t) as d. intros d.
  destruct (Z.leb_spec (DayFromYear (1970 + d * 400 / 146097 + 1)) d) as [H1|H1];
  [|destruct (Z.leb_spec (DayFromYear (1970 + d * 400 / 146097)) d) as [H2|H2]];
  unfold DayFromYear in *; Z.div_mod_to_equations; lia.
Qed.

Lemma DayFromYear_mono y y' : (y <= y' -> DayFromYear y <= DayFromYear y')%Z.
Proof. unfold DayFromYear. intros H. Z.div_mod_to_equations. lia. Qed.

(** It is the largest year [y] with [TimeFromYear y <= t]. *)
Lemma YearFromTime_largest t y :
  (TimeFromYear y <= t <-> y <= YearFromTime t)%Z.
Proof.
  pose proof (YearFromTime_spec t) as [Hlo Hhi].
  unfold TimeFromYear, Day, msPerDay in *. split; intros H.
  - destruct (Z_le_gt_dec y (YearFromTime t)) as [|Hgt]; [assumption|].
    pose proof (DayFromYear_mono (YearFromTime t + 1) y ltac:(lia)).
    Z.div_mod_to_equations. lia.
  - pose proof (DayFromYear_mono y (YearFromTime t) H).
    Z.div_mod_to_equations. lia.
Qed.

Lemma MonthFromTime_range ms : (0 <= MonthFromTime ms <= 11)%Z.
Proof.
  unfold MonthFromTime.
  repeat match goal with |- context [if ?c then _ else _] => destruct c end; lia.
Qed.

Lemma toISOString_samples :
  Date_toISOString (TimeValue 0) = Ok "1970-01-01T00:00:00.000Z" /\
  Date_toISOString (TimeValue 951782400000) = Ok "2000-02-29T00:00:00.000Z" /\
  Date_toISOString (TimeValue (-1)) = Ok "1969-12-31T23:59:59.999Z" /\
  Date_toISOString (TimeValue maxTime) = Ok "+275760-09-13T00:00:00.000Z" /\
  Date_toISOString jan15 = Ok "2024-01-15T00:00:00.000Z" /\
  Date_toISOString InvalidDate = Throw (RangeError "Invalid time value").
Proof. repeat apply conj; vm_compute; reflexivity. Qed.

(* ------------------------------------------------------------------ *)
(** ** Numbers *)
(* ------------------------------------------------------------------ *)

(** Formatting and rounding, on values whose JavaScript results are well
    known. *)
Lemma number_format_samples :
  Number_toString 100 = "100" /\
  Number_toString (0.1 + 0.2) = "0.30000000000000004" /\
  Number_toString 1e21 = "1e+21" /\
  Number_toString 5e-324 = "5e-324" /\
  toFixed_2 50 = "50.00" /\
  toFixed_2 1.005 = "1.00" /\
  toFixed_2 0.005 = "0.01" /\
  Math_round 2.5 = 3 /\
  Math_round (-2.5) = -2 /\
  Math_round 8333.333333333334 = 8333.
Proof. repeat apply conj; vm_compute; reflexivity. Qed.

(** *** Non-negative numbers *)

Lemma Prim2SF_zero : Prim2SF 0 = S754_zero false.
Proof. reflexivity. Qed.

Lemma positive_nonneg x : (0 <? x) = true -> nonneg x = true.
Proof.
  unfold nonneg. rewrite FloatAxioms.ltb_spec, Prim2SF_zero.
  destruct (Prim2SF x) as [[]|[]| |[] m e]; simpl; auto.
Qed.

Lemma shr_1_nonneg mrs : (0 <= shr_m mrs)%Z -> (0 <= shr_m (shr_1 mrs))%Z.
Proof.
  destruct mrs as [m r s]. simpl.
  destruct m as [|[p|p|]|[p|p|]]; simpl; lia.
Qed.

Lemma iter_pos_invariant {A} (f : A -> A) (P : A -> Prop) :
  (forall a, P a -> P (f a)) ->
  forall n a, P a -> P (iter_pos f n a).
Proof.
  intros Hf. induction n as [n IH|n IH|]; simpl; auto.
Qed.

Lemma shr_fexp_nonneg m e l :
  (0 <= m)%Z -> (0 <= shr_m (fst (shr_fexp prec emax m e l)))%Z.
Proof.
  intros Hm. unfold shr_fexp, shr.
  assert (H0 : (0 <= shr_m (shr_record_of_loc m l))%Z)
    by (destruct l as [|[]]; simpl; assumption).
  destruct (fexp prec emax (Zdigits2 m + e) - e)%Z; simpl; try assumption.
  apply (iter_pos_invariant shr_1 (fun r => (0 <= shr_m r)%Z)); auto using shr_1_nonneg.
Qed.

Lemma round_nearest_even_nonneg m l :
  (0 <= m)%Z -> (0 <= round_nearest_even m l)%Z.
Proof.
  intros Hm. destruct l as [|[]]; simpl; try lia.
  destruct (Z.even m); lia.
Qed.

Lemma binary_round_aux_nonneg m e l :
  (0 <= m)%Z -> sf_nonneg (binary_round_aux prec emax false m e l) = true.
Proof.
  intros Hm. unfold binary_round_aux.
  pose proof (shr_fexp_nonneg m e l Hm) as H1.
  destruct (shr_fexp prec emax m e l) as [mrs' e']. simpl in H1.
  pose proof (shr_fexp_nonneg _ e' loc_Exact
                (round_nearest_even_nonneg _ (loc_of_shr_record mrs') H1)) as H2.
  destruct (shr_fexp prec emax (round_nearest_even _ _) e' loc_Exact) as [mrs'' e''].
  simpl in H2. destruct (shr_m mrs''); try lia; [reflexivity|].
  match goal with |- context [if ?c then _ else _] => destruct c end; reflexivity.
Qed.

Lemma SFadd_nonneg x y :
  sf_nonneg x = true -> sf_nonneg y = true -> sf_nonneg (SF64add x y) = true.
Proof.
  destruct x as [[]|[]| |[] mx ex], y as [[]|[]| |[] my ey]; simpl; try discriminate; auto.
  intros _ _. unfold binary_round.
  destruct (shl_align _ _ _) as [mz ez].
  apply binary_round_aux_nonneg. lia.
Qed.

Lemma add_nonneg x y : nonneg x = true -> nonneg y = true -> nonneg (x + y) = true.
Proof. unfold nonneg. rewrite FloatAxioms.add_spec. apply SFadd_nonneg. Qed.

Lemma SFcompare_refl_finite m e :
  SFcompare (S754_finite false m e) (S754_finite false m e) = Some Eq.
Proof.
  simpl. rewrite Z.compare_refl. now rewrite Pos.compare_cont_refl.
Qed.

(** [acc[k] || 0] leaves a non-negative number as it is. *)
Lemma truthy_or_zero v : nonneg v = true -> (if truthy v then v else 0) = v.
Proof.
  unfold nonneg, truthy, isNaN. intros H.
  rewrite !FloatAxioms.eqb_spec, Prim2SF_zero.
  pose proof (SF2Prim_Prim2SF v) as E.
  destruct (Prim2SF v) as [[]|[]| |[] m e]; try discriminate.
  - rewrite <- E. reflexivity.
  - reflexivity.
  - unfold SFeqb at 1. rewrite SFcompare_refl_finite. reflexivity.
Qed.

(** *** The order on non-negative numbers *)

Ltac compare_cases :=
  repeat match goal with
    | |- context [Pos.compare_cont Eq ?a ?b] =>
        change (Pos.compare_cont Eq a b) with (Pos.compare a b);
        destruct (Pos.compare_spec a b)
    | |- context [Z.compare ?a ?b] => destruct (Z.compare_spec a b)
    end;
  simpl; try discriminate; try reflexivity; try lia.

Lemma ltb_asym x y : (x <? y) = true -> (y <? x) = false.
Proof.
  rewrite !FloatAxioms.ltb_spec. unfold SFltb.
  destruct (Prim2SF x) as [[]|[]| |[] mx ex], (Prim2SF y) as [[]|[]| |[] my ey];
    simpl; try discriminate; auto; compare_cases.
Qed.

Lemma ltb_false_leb x y :
  nonneg x = true -> nonneg y = true -> (x <? y) = false -> (y <=? x) = true.
Proof.
  unfold nonneg. rewrite FloatAxioms.ltb_spec, FloatAxioms.leb_spec. unfold SFltb, SFleb.
  destruct (Prim2SF x) as [[]|[]| |[] mx ex], (Prim2SF y) as [[]|[]| |[] my ey];
    simpl; try discriminate; auto.
  intros _ _. compare_cases.
Qed.

Lemma leb_trans x y z :
  nonneg x = true -> nonneg y = true -> nonneg z = true ->
  (x <=? y) = true -> (y <=? z) = true -> (x <=? z) = true.
Proof.
  unfold nonneg. rewrite !FloatAxioms.leb_spec. unfold SFleb.
  destruct (Prim2SF x) as [[]|[]| |[] mx ex], (Prim2SF y) as [[]|[]| |[] my ey],
           (Prim2SF z) as [[]|[]| |[] mz ez];
    simpl; try discriminate; auto.
  intros _ _ _. compare_cases.
Qed.

Lemma ltb_leb x y : (x <? y) = true -> (x <=? y) = true.
Proof.
  rewrite FloatAxioms.ltb_spec, FloatAxioms.leb_spec. unfold SFltb, SFleb.
  now destruct (SFcompare _ _) as [[]|].
Qed.

Lemma leb_refl x : nonneg x = true -> (x <=? x) = true.
Proof.
  unfold nonneg. rewrite FloatAxioms.leb_spec. unfold SFleb.
  destruct (Prim2SF x) as [[]|[]| |[] m e]; try discriminate; auto.
  now rewrite SFcompare_refl_finite.
Qed.

(** *** NaN is absorbing *)

Lemma float_by_spec x s : Prim2SF x = s -> x = SF2Prim s.
Proof. intros <-. symmetry. apply SF2Prim_Prim2SF. Qed.

Lemma mul_nan_l x : nan * x = nan.
Proof.
  apply (float_by_spec _ S754_nan). rewrite FloatAxioms.mul_spec.
  change (Prim2SF nan) with S754_nan. reflexivity.
Qed.

Lemma add_nan_l x : nan + x = nan.
Proof.
  apply (float_by_spec _ S754_nan). rewrite FloatAxioms.add_spec.
  change (Prim2SF nan) with S754_nan. reflexivity.
Qed.

(* ================================================================== *)
(** * backend/server.js: properties                               *)
(* ================================================================== *)

(* ------------------------------------------------------------------ *)
(** ** Month keys *)
(* ------------------------------------------------------------------ *)

Lemma all_below_spec n p :
  all_below n p = true -> forall z, (0 <= z < Z.of_nat n)%Z -> p z = true.
Proof.
  induction n as [|n IH]; simpl; intros H z Hz; [lia|].
  apply andb_true_iff in H as [H1 H2].
  destruct (Z.eq_dec z (Z.of_nat n)) as [->|Hne]; [assumption|].
  apply IH; [assumption | lia].
Qed.

Lemma year_table : all_below (Z.to_nat 10000) year_ok = true.
Proof. vm_compute. reflexivity. Qed.

Lemma month_table : all_below (Z.to_nat 12) month_ok = true.
Proof. vm_compute. reflexivity. Qed.

Lemma pad_year y :
  (0 <= y <= 9999)%Z ->
  String.length (pad 4 y) = 4%nat /\ decimal_value (pad 4 y) 0 = Some y.
Proof.
  intros Hy. assert (H := all_below_spec _ _ year_table y).
  unfold year_ok in H. rewrite andb_true_iff in H.
  destruct H as [H1 H2]; [rewrite Z2Nat.id; lia|].
  apply Nat.eqb_eq in H1. split; [assumption|].
  destruct (decimal_value (pad 4 y) 0); [|discriminate].
  apply Z.eqb_eq in H2. congruence.
Qed.

Lemma pad_month m :
  (0 <= m <= 11)%Z ->
  String.length (pad 2 (m + 1)) = 2%nat /\ decimal_value (pad 2 (m + 1)) 0 = Some (m + 1)%Z.
Proof.
  intros Hm. assert (H := all_below_spec _ _ month_table m).
  unfold month_ok in H. rewrite andb_true_iff in H.
  destruct H as [H1 H2]; [rewrite Z2Nat.id; lia|].
  apply Nat.eqb_eq in H1. split; [assumption|].
  destruct (decimal_value (pad 2 (m + 1)) 0); [|discriminate].
  apply Z.eqb_eq in H2. congruence.
Qed.

Lemma readKey_monthKey ym :
  inRange ym -> readKey (monthKey ym) = (Some (fst ym), Some (snd ym + 1)%Z).
Proof.
  intros [Hy Hm]. destruct (pad_year _ Hy) as [Ly Dy], (pad_month _ Hm) as [Lm Dm].
  unfold readKey, monthKey. f_equal.
  - rewrite <- Ly at 1. now rewrite substring_prefix.
  - rewrite <- append_assoc.
    replace 5%nat with (String.length (pad 4 (fst ym) ++ "-"))
      by (rewrite append_length, Ly; reflexivity).
    rewrite substring_suffix. rewrite <- Lm at 1. now rewrite substring_all.
Qed.

Lemma monthKey_inj ym ym' :
  inRange ym -> inRange ym' -> monthKey ym = monthKey ym' -> ym = ym'.
Proof.
  intros H H' E. apply (f_equal readKey) in E.
  rewrite !readKey_monthKey in E by assumption.
  destruct ym, ym'; simpl in *. injection E as -> E. f_equal. lia.
Qed.

Lemma monthKey_length ym : inRange ym -> String.length (monthKey ym) = 7%nat.
Proof.
  intros [Hy Hm]. destruct (pad_year _ Hy) as [Ly _], (pad_month _ Hm) as [Lm _].
  unfold monthKey. rewrite !append_length, Ly, Lm. reflexivity.
Qed.

Lemma isoMonth_valid d :
  validDate d ->
  exists ym, calendarMonth d = Some ym /\ inRange ym /\
             Server.isoMonth d = Ok (monthKey ym).
Proof.
  destruct d as [ms|]; simpl; [|tauto]. intros [Hms Hy].
  exists (YearFromTime ms, MonthFromTime ms).
  assert (R : inRange (YearFromTime ms, MonthFromTime ms))
    by (split; [assumption | apply MonthFromTime_range]).
  repeat split; try apply R.
  unfold Server.isoMonth, Date_toISOString.
  apply Z.leb_le in Hms. rewrite Hms. simpl bind. f_equal.
  unfold isoYear.
  replace ((0 <=? YearFromTime ms)%Z && (YearFromTime ms <=? 9999)%Z) with true
    by (symmetry; apply andb_true_iff; split; apply Z.leb_le; lia).
  unfold String_slice. change (7 - 0)%nat with 7%nat.
  rewrite <- (monthKey_length _ R).
  match goal with
  | |- context [pad 2 (MonthFromTime ms + 1) ++ ?r] => set (rest := r)
  end.
  match goal with
  | |- substring _ _ ?s = _ =>
      replace s with (monthKey (YearFromTime ms, MonthFromTime ms) ++ rest)
        by (unfold monthKey; simpl fst; simpl snd; rewrite !append_assoc;
            reflexivity)
  end.
  apply substring_prefix.
Qed.

Lemma valid_month t :
  validTransaction t ->
  exists ym, monthOf t = Some ym /\ inRange ym /\
             isoMonth (Transaction.date t) = Ok (monthKey ym).
Proof. intros H. exact (isoMonth_valid _ H). Qed.

Lemma month_eqb_eq a b : month_eqb a b = true <-> a = b.
Proof.
  destruct a as [[y m]|], b as [[y' m']|]; simpl; split; try congruence.
  - intros H. apply andb_true_iff in H as [H1 H2].
    apply Z.eqb_eq in H1, H2. congruence.
  - intros H. injection H as -> ->. now rewrite !Z.eqb_refl.
Qed.

(** For a valid transaction, carrying the key of a month is falling in it. *)
Lemma hasKey_month ym t :
  inRange ym -> validTransaction t ->
  hasKey (monthKey ym) t = month_eqb (monthOf t) (Some ym).
Proof.
  intros R Ht. destruct (isoMonth_valid _ Ht) as (ym' & Hcm & R' & Hk).
  unfold hasKey, monthOf. rewrite Hk, Hcm.
  destruct (month_eqb (Some ym') (Some ym)) eqn:E.
  - apply month_eqb_eq in E. injection E as ->. apply String.eqb_refl.
  - apply String.eqb_neq. intros H. apply monthKey_inj in H; try assumption.
    subst. assert (month_eqb (Some ym) (Some ym) = true) by now apply month_eqb_eq.
    congruence.
Qed.

(* ------------------------------------------------------------------ *)
(** ** getMonthlyData *)
(* ------------------------------------------------------------------ *)

Lemma getMonthlyData_step_eq acc t k :
  isoMonth (Transaction.date t) = Ok k ->
  getMonthlyData_step acc t =
  Ok (Obj_set acc k (credit (bucketOr (Obj_get acc k)) t)).
Proof.
  intros Hk. unfold getMonthlyData_step. rewrite Hk. simpl bind.
  unfold credit.
  destruct (Obj_get acc k) as [b|] eqn:E.
  - rewrite E. simpl bucketOr.
    now destruct (Transaction.isExpense t).
  - rewrite Obj_get_set_same. simpl bucketOr.
    destruct (Transaction.isExpense t);
      now rewrite Obj_set_set.
Qed.

Lemma reduce_getMonthlyData ts : forall acc,
  Forall validTransaction ts ->
  exists acc',
    reduceM getMonthlyData_step ts acc = Ok acc' /\
    (forall k,
       Obj_get acc' k =
       match filter (hasKey k) ts with
       | [] => Obj_get acc k
       | txs => Some (fold_left credit txs (bucketOr (Obj_get acc k)))
       end) /\
    (NoDup (map fst acc) -> NoDup (map fst acc')).
Proof.
  induction ts as [|t ts IH]; intros acc Hv.
  - exists acc. simpl. auto.
  - inversion Hv as [|? ? Ht Hts]; subst.
    destruct (isoMonth_valid _ Ht) as (ym & _ & _ & Hk).
    simpl reduceM. rewrite (getMonthlyData_step_eq acc t _ Hk). simpl bind.
    destruct (IH (Obj_set acc (monthKey ym)
                    (credit (bucketOr (Obj_get acc (monthKey ym))) t)) Hts)
      as (acc' & Hred & Hget & Hnd).
    exists acc'. split; [assumption|]. split.
    + intros k. rewrite Hget. simpl filter. unfold hasKey at 2. rewrite Hk.
      destruct (String.eqb (monthKey ym) k) eqn:E.
      * apply String.eqb_eq in E. subst k. rewrite Obj_get_set_same.
        now destruct (filter (hasKey (monthKey ym)) ts).
      * apply String.eqb_neq in E. rewrite Obj_get_set_other by assumption.
        reflexivity.
    + intros H. apply Hnd. now apply Obj_keys_set_NoDup.
Qed.

Lemma credit_expenses txs : forall b,
  expenses (fold_left credit txs b) =
  fold_left (fun a t => a + Transaction.amount t) (filter Transaction.isExpense txs) (expenses b).
Proof.
  induction txs as [|t txs IH]; intros b; simpl; [reflexivity|].
  rewrite IH. unfold credit. now destruct (Transaction.isExpense t).
Qed.

Lemma credit_income txs : forall b,
  income (fold_left credit txs b) =
  fold_left (fun a t => a + Transaction.amount t)
            (filter (fun t => negb (Transaction.isExpense t)) txs) (income b).
Proof.
  induction txs as [|t txs IH]; intros b; simpl; [reflexivity|].
  rewrite IH. unfold credit. now destruct (Transaction.isExpense t).
Qed.

Lemma getMonthlyData_get ts :
  Forall validTransaction ts ->
  exists monthlyData,
    getMonthlyData ts = Ok monthlyData /\
    NoDup (map fst monthlyData) /\
    forall k,
      Obj_get monthlyData k =
      match filter (hasKey k) ts with
      | [] => None
      | txs => Some (fold_left credit txs zeroBucket)
      end.
Proof.
  intros Hv. destruct (reduce_getMonthlyData ts [] Hv) as (md & Hred & Hget & Hnd).
  exists md. split; [exact Hred|]. split; [apply Hnd; constructor|].
  intros k. rewrite Hget. reflexivity.
Qed.

Lemma key_present ts monthlyData k :
  Forall validTransaction ts ->
  (forall k, Obj_get monthlyData k =
             match filter (hasKey k) ts with
             | [] => None
             | txs => Some (fold_left credit txs zeroBucket)
             end) ->
  (Obj_get monthlyData k <> None <->
   exists t ym, In t ts /\ monthOf t = Some ym /\ k = monthKey ym).
Proof.
  intros Hv Hget. rewrite Hget. rewrite Forall_forall in Hv. split.
  - intros H. destruct (filter (hasKey k) ts) as [|t F] eqn:E; [congruence|].
    assert (Ht : In t (filter (hasKey k) ts)) by (rewrite E; now left).
    apply filter_In in Ht as [Hin Hk].
    destruct (valid_month t (Hv t Hin)) as (ym & Hm & _ & Hy).
    exists t, ym. repeat split; try assumption.
    unfold hasKey in Hk. rewrite Hy in Hk. apply String.eqb_eq in Hk. congruence.
  - intros (t & ym & Hin & Hm & ->).
    destruct (valid_month t (Hv t Hin)) as (ym' & Hm' & _ & Hy).
    assert (ym' = ym) by congruence. subst ym'.
    destruct (filter (hasKey (monthKey ym)) ts) eqn:E; [|discriminate].
    exfalso. rewrite filter_nil_iff in E. specialize (E t Hin).
    unfold hasKey in E. rewrite Hy, String.eqb_refl in E. discriminate.
Qed.

Lemma getMonthlyData_step_length acc t acc' :
  Server.getMonthlyData_step acc t = Ok acc' ->
  (List.length acc' <= S (List.length acc))%nat.
Proof.
  unfold Server.getMonthlyData_step.
  destruct (Server.isoMonth (Transaction.date t)) as [k|e]; simpl; [|discriminate].
  destruct (Obj_get acc k) as [b|] eqn:E.
  - rewrite E. destruct (Transaction.isExpense t); intros [= <-];
      rewrite Obj_set_length, E; lia.
  - rewrite Obj_get_set_same.
    destruct (Transaction.isExpense t); intros [= <-];
      rewrite Obj_set_set, Obj_set_length, E; lia.
Qed.

Lemma reduce_getMonthlyData_length ts : forall acc acc',
  reduceM Server.getMonthlyData_step ts acc = Ok acc' ->
  (List.length acc' <= List.length acc + List.length ts)%nat.
Proof.
  induction ts as [|t ts IH]; simpl; intros acc acc'.
  - intros [= <-]. lia.
  - destruct (Server.getMonthlyData_step acc t) as [acc1|e] eqn:E; simpl; [|discriminate].
    intros H. apply IH in H. apply getMonthlyData_step_length in E. lia.
Qed.

Lemma sortedMonths_length monthlyData :
  List.length (sortedMonths monthlyData) = List.length monthlyData.
Proof.
  unfold sortedMonths.
  now rewrite Array_sort_length, (Permutation_length (Object_keys_perm _ monthlyData)),
    length_map.
Qed.

(** C1, the claim as stated fails.  An expense of 0.1, an income of 0.1
    and an expense of 0.4 in January 2024: the bucket holds 0.5 and 0.1,
    and their sum 0.6 is not the sum 0.6000000000000001 of the three
    amounts of the month.  January and February of the year 10000, whose
    ISO form starts with [+010000]: two calendar months present, and one
    bucket. *)
Lemma getMonthlyData_sum_and_expanded_year :
  Forall validTransaction splitRounding /\
  getMonthlyData splitRounding =
  Ok [("2024-01", {| expenses := 0.5; income := 0.1 |})] /\
  total (allIn (Some (2024, 0)%Z) splitRounding) = 0.6000000000000001 /\
  (0.5 + 0.1 =? 0.6000000000000001) = false /\
  forallb datedValidly year10000 = true /\
  getMonthlyData year10000 = Ok [("+010000", {| expenses := 3; income := 0 |})] /\
  List.length (nodup month_eq_dec (map monthOf year10000)) = 2%nat.
Proof.
  split.
  - repeat apply Forall_cons; try apply Forall_nil;
      vm_compute; repeat apply conj; discriminate.
  - repeat apply conj; vm_compute; reflexivity.
Qed.

(** C1, as amended.  For transactions with valid dates whose year has four
    digits (0000 to 9999), [getMonthlyData] returns an object that has a
    bucket exactly under the YYYY-MM keys of the calendar months in which a
    transaction falls; the bucket of a month holds, as [expenses], the sum
    of the amounts of that month's expense-type transactions and, as
    [income], the sum of the remaining amounts of the month, each added
    from 0 in list order; and there are as many buckets as distinct
    calendar months. *)
Theorem getMonthlyData_buckets (transactions : list Transaction.t) :
  Forall validTransaction transactions ->
  exists monthlyData,
    getMonthlyData transactions = Ok monthlyData /\
    (forall k, In k (Object_keys monthlyData) <->
               exists t ym, In t transactions /\ monthOf t = Some ym /\
                            k = monthKey ym) /\
    (forall t ym, In t transactions -> monthOf t = Some ym ->
       exists b, Obj_get monthlyData (monthKey ym) = Some b /\
         expenses b = total (expensesIn (Some ym) transactions) /\
         income b = total (othersIn (Some ym) transactions)) /\
    List.length (Object_keys monthlyData) =
    List.length (nodup month_eq_dec (map monthOf transactions)).
Proof.
  intros Hv. destruct (getMonthlyData_get transactions Hv) as (md & Hmd & Hnd & Hget).
  exists md. split; [exact Hmd|].
  assert (Hkeys := fun k => key_present transactions md k Hv Hget).
  pose proof Hv as Hv'. rewrite Forall_forall in Hv'.
  split; [|split].
  - intros k. rewrite Object_keys_In. apply Hkeys.
  - intros t ym Hin Hm.
    destruct (valid_month t (Hv' t Hin)) as (ym' & Hm' & R & Hy).
    assert (ym' = ym) by congruence. subst ym'.
    assert (Hb : Obj_get md (monthKey ym) <> None)
      by (apply Hkeys; exists t, ym; auto).
    rewrite Hget in Hb |- *.
    destruct (filter (hasKey (monthKey ym)) transactions) as [|t0 F] eqn:E;
      [congruence|].
    rewrite <- E. clear Hb.
    eexists. split; [reflexivity|].
    assert (He : expenses (fold_left credit (filter (hasKey (monthKey ym)) transactions)
                            zeroBucket)
                 = total (expensesIn (Some ym) transactions)).
    { rewrite credit_expenses, filter_filter. unfold total, expensesIn. simpl.
      f_equal. apply filter_ext_in. intros x Hx.
      now rewrite (hasKey_month ym x R (Hv' x Hx)). }
    assert (Hi : income (fold_left credit (filter (hasKey (monthKey ym)) transactions)
                            zeroBucket)
                 = total (othersIn (Some ym) transactions)).
    { rewrite credit_income, filter_filter. unfold total, othersIn. simpl.
      f_equal. apply filter_ext_in. intros x Hx.
      now rewrite (hasKey_month ym x R (Hv' x Hx)). }
    rewrite He, Hi. auto.
  - rewrite (Permutation_length (Object_keys_perm _ md)).
    rewrite <- (length_map keyOfMonth (nodup month_eq_dec (map monthOf transactions))).
    apply Permutation_length, NoDup_Permutation.
    + assumption.
    + apply NoDup_map_inj; [|apply NoDup_nodup].
      intros a b Ha Hb Hab. rewrite nodup_In, in_map_iff in Ha, Hb.
      destruct Ha as (ta & <- & Hta), Hb as (tb & <- & Htb).
      destruct (valid_month ta (Hv' ta Hta)) as (ya & Hma & Ra & _).
      destruct (valid_month tb (Hv' tb Htb)) as (yb & Hmb & Rb & _).
      rewrite Hma, Hmb in *. simpl in Hab. f_equal. now apply monthKey_inj.
    + intros k. rewrite Obj_get_In, Hkeys, in_map_iff. split.
      * intros (t & ym & Hin & Hm & ->). exists (Some ym). split; [reflexivity|].
        rewrite nodup_In, in_map_iff. eauto.
      * intros (cm & <- & Hcm). rewrite nodup_In, in_map_iff in Hcm.
        destruct Hcm as (t & <- & Hin).
        destruct (valid_month t (Hv' t Hin)) as (ym & Hm & _ & _).
        exists t, ym. rewrite Hm. auto.
Qed.

Lemma getMonthlyData_buckets_witness :
  Forall validTransaction fourMonths /\
  exists monthlyData,
    getMonthlyData fourMonths = Ok monthlyData /\
    List.length (Object_keys monthlyData) =
    List.length (nodup month_eq_dec (map monthOf fourMonths)).
Proof.
  assert (H : Forall validTransaction fourMonths)
    by (repeat apply Forall_cons; try apply Forall_nil;
        vm_compute; repeat apply conj; discriminate).
  split; [exact H|].
  destruct (getMonthlyData_buckets fourMonths H) as (md & Hmd & _ & _ & Hlen).
  exists md. split; assumption.
Defined.

(** Beyond the year 9999 the ISO form starts with a sign and six digits:
    the first seven characters are the year alone, and the months of a
    year share one bucket. *)
Lemma getMonthlyData_expanded_year :
  getMonthlyData year10000 =
  Ok [("+010000", {| expenses := 3; income := 0 |})].
Proof. vm_compute. reflexivity. Qed.

(* ------------------------------------------------------------------ *)
(** ** predictNextMonthSpending and calculateConfidence *)
(* ------------------------------------------------------------------ *)

Lemma expensesOf_month monthlyData j :
  (j < List.length (sortedMonths monthlyData))%nat ->
  forall d, expensesOf monthlyData (nth j (sortedMonths monthlyData) d)
            = Ok (expensesAt monthlyData j).
Proof.
  intros Hj d. unfold expensesOf, expensesAt.
  rewrite (nth_indep _ d "" Hj).
  assert (Hin : In (nth j (sortedMonths monthlyData) "") (sortedMonths monthlyData))
    by now apply nth_In.
  unfold sortedMonths in Hin at 2.
  apply (Permutation_in _ (Array_sort_perm _)) in Hin.
  apply Object_keys_In in Hin.
  now destruct (Obj_get monthlyData _).
Qed.

Lemma mapM_expensesOf monthlyData (l : list string) :
  (forall m, In m l -> In m (sortedMonths monthlyData)) ->
  exists es, mapM (Server.expensesOf monthlyData) l = Ok es.
Proof.
  induction l as [|m l IH]; intros Hl; simpl; [eauto|].
  assert (Hm : In m (sortedMonths monthlyData)) by (apply Hl; now left).
  apply (In_nth _ _ "") in Hm as (j & Hj & <-).
  rewrite (expensesOf_month monthlyData j Hj ""). simpl bind.
  destruct IH as (es & ->); [intros; apply Hl; now right|]. simpl. eauto.
Qed.

(** C2.  Three transactions of one calendar month: the history spans one
    month, yet the predictor does not return [null]; it divides the one
    month's expenses by 3. *)
Theorem predictNextMonthSpending_one_month :
  Server.getMonthlyData oneMonthThree =
  Ok [("2024-01", {| Server.expenses := 600; Server.income := 0 |})] /\
  Server.predictNextMonthSpending oneMonthThree =
  Ok (Some {| Server.prediction := 200; Server.confidence := 0 |}).
Proof. split; vm_compute; reflexivity. Qed.

(** With three or more months of history the prediction is the mean of
    the expenses of the three latest months, and the confidence is computed
    from the same three values. *)
Theorem predictNextMonthSpending_mean (transactions : list Transaction.t)
  (monthlyData : Obj Server.MonthBucket) :
  Server.getMonthlyData transactions = Ok monthlyData ->
  (3 <= List.length (sortedMonths monthlyData))%nat ->
  Server.predictNextMonthSpending transactions =
  Ok (Some
        {| Server.prediction :=
             mean3 (expensesAt monthlyData (List.length (sortedMonths monthlyData) - 3))
                   (expensesAt monthlyData (List.length (sortedMonths monthlyData) - 2))
                   (expensesAt monthlyData (List.length (sortedMonths monthlyData) - 1));
           Server.confidence :=
             Server.calculateConfidence
               [expensesAt monthlyData (List.length (sortedMonths monthlyData) - 3);
                expensesAt monthlyData (List.length (sortedMonths monthlyData) - 2);
                expensesAt monthlyData (List.length (sortedMonths monthlyData) - 1)] |}).
Proof.
  intros Hmd Hk. unfold Server.predictNextMonthSpending.
  assert (Hlen : (3 <= List.length transactions)%nat).
  { pose proof (reduce_getMonthlyData_length transactions [] monthlyData Hmd) as H.
    rewrite sortedMonths_length in Hk. simpl in H. lia. }
  replace (List.length transactions <? 3)%nat with false
    by (symmetry; apply Nat.ltb_ge; exact Hlen).
  rewrite Hmd. simpl bind. fold (sortedMonths monthlyData).
  rewrite (Array_slice_last_three _ "" Hk). simpl mapM.
  rewrite !expensesOf_month by lia. reflexivity.
Qed.

Lemma predictNextMonthSpending_mean_witness :
  Server.getMonthlyData janFebMar =
  Ok [("2024-01", {| Server.expenses := 100; Server.income := 0 |});
      ("2024-02", {| Server.expenses := 200; Server.income := 0 |});
      ("2024-03", {| Server.expenses := 300; Server.income := 0 |})] /\
  exists confidence,
    Server.predictNextMonthSpending janFebMar =
    Ok (Some {| Server.prediction := 200; Server.confidence := confidence |}).
Proof.
  assert (H1 : Server.getMonthlyData janFebMar =
               Ok [("2024-01", {| Server.expenses := 100; Server.income := 0 |});
                   ("2024-02", {| Server.expenses := 200; Server.income := 0 |});
                   ("2024-03", {| Server.expenses := 300; Server.income := 0 |})])
    by (vm_compute; reflexivity).
  split; [exact H1|]. eexists.
  rewrite (predictNextMonthSpending_mean janFebMar _ H1)
    by (vm_compute; repeat constructor).
  vm_compute. reflexivity.
Defined.

(** For valid dates the predictor returns [null] exactly when there are
    fewer than three transactions. *)
Theorem predictNextMonthSpending_null_iff (transactions : list Transaction.t) :
  Forall validTransaction transactions ->
  (Server.predictNextMonthSpending transactions = Ok None <->
   (List.length transactions < 3)%nat).
Proof.
  intros Hv. unfold Server.predictNextMonthSpending.
  destruct (Nat.ltb_spec (List.length transactions) 3) as [Hlt|Hge].
  - tauto.
  - split; [|lia]. intros H. exfalso.
    destruct (getMonthlyData_get transactions Hv) as (md & Hmd & _).
    rewrite Hmd in H. simpl bind in H. fold (sortedMonths md) in H.
    destruct (mapM_expensesOf md (Array_slice_last 3 (sortedMonths md))) as (es & Hes).
    + intros m. apply In_skipn.
    + rewrite Hes in H. simpl in H. discriminate H.
Qed.

Lemma predictNextMonthSpending_null_iff_witness :
  Forall validTransaction oneMonthThree /\
  Server.predictNextMonthSpending oneMonthThree <> Ok None.
Proof.
  assert (H : Forall validTransaction oneMonthThree)
    by (repeat apply Forall_cons; try apply Forall_nil;
        vm_compute; repeat apply conj; discriminate).
  split; [exact H|]. intros E.
  apply (proj1 (predictNextMonthSpending_null_iff oneMonthThree H)) in E.
  simpl in E. lia.
Defined.

(** C9.  A window of three zero expenses has mean 0; the division by the
    mean is not guarded and the confidence is [NaN], neither 0 nor a number
    in [0, 100].  Three months with income only reach it. *)
Theorem confidence_of_zero_window :
  Server.calculateConfidence [0; 0; 0] = nan /\
  Server.predictNextMonthSpending incomeOnly =
  Ok (Some {| Server.prediction := 0; Server.confidence := nan |}).
Proof. split; vm_compute; reflexivity. Qed.

(* ------------------------------------------------------------------ *)
(** ** The backtest of GET /api/accuracy *)
(* ------------------------------------------------------------------ *)

Lemma backtestStep_eq monthlyData st i :
  (3 <= i < List.length (sortedMonths monthlyData))%nat ->
  backtestStep monthlyData (sortedMonths monthlyData) st i =
  Ok {| predictions := (predictions st ++ [recordAt monthlyData i])%list;
        totalAccuracy :=
          totalAccuracy st +
          calculateAccuracy
            (mean3 (expensesAt monthlyData (i - 3)) (expensesAt monthlyData (i - 2))
                   (expensesAt monthlyData (i - 1)))
            (expensesAt monthlyData i);
        predictionCount := S (predictionCount st) |}.
Proof.
  intros Hi. unfold backtestStep.
  rewrite (Array_slice_three _ i "" Hi). simpl reduceM.
  rewrite !expensesOf_month by lia. simpl bind.
  rewrite (nth_indep _ "undefined" "") by lia.
  reflexivity.
Qed.

Lemma backtest_loop monthlyData n : forall a st,
  (3 <= a)%nat ->
  (0 < n -> a + n <= List.length (sortedMonths monthlyData))%nat ->
  exists st',
    reduceM (backtestStep monthlyData (sortedMonths monthlyData)) (seq a n) st = Ok st' /\
    predictions st' = (predictions st ++ map (recordAt monthlyData) (seq a n))%list /\
    predictionCount st' = (predictionCount st + n)%nat.
Proof.
  induction n as [|n IH]; intros a st Ha Hn; simpl.
  - exists st. rewrite app_nil_r, Nat.add_0_r. auto.
  - rewrite backtestStep_eq by lia. simpl bind.
    edestruct (IH (S a)) as (st' & Hred & Hp & Hc); [lia | lia | ].
    exists st'. split; [exact Hred|]. rewrite Hp, Hc. simpl.
    rewrite <- app_assoc. split; [reflexivity | lia].
Qed.

(** C3.  For every aggregated history the backtest returns normally.  With
    [m_0 .. m_(k-1)] the keys in ascending order (a sorted rearrangement of
    the object's keys), it emits one record for each [i] from 3 to [k-1],
    in that order: the month is [m_i], [predicted] is the mean of the
    expenses of the three months before, [actual] the expenses of [m_i],
    [accuracy] is [clamp(0, 100, (1 - |predicted - actual| / actual) * 100)]
    and 0 when [actual] is 0, each of the three rounded to two decimals.
    On four months of expenses 100, 200, 300, 240 the one record is
    predicted 200, actual 240, accuracy 83.33. *)
Theorem backtest_records (monthlyData : Obj MonthBucket) :
  ascending (sortedMonths monthlyData) /\
  Permutation (sortedMonths monthlyData) (Object_keys monthlyData) /\
  exists st,
    backtest monthlyData = Ok st /\
    List.length (predictions st) = (List.length (sortedMonths monthlyData) - 3)%nat /\
    (forall i, (3 <= i < List.length (sortedMonths monthlyData))%nat ->
       nth_error (predictions st) (i - 3) =
       Some {| month := nth i (sortedMonths monthlyData) "";
               predicted := round2 (mean3 (expensesAt monthlyData (i - 3))
                                          (expensesAt monthlyData (i - 2))
                                          (expensesAt monthlyData (i - 1)));
               actual := round2 (expensesAt monthlyData i);
               accuracy :=
                 round2 (accuracyOf
                           (mean3 (expensesAt monthlyData (i - 3))
                                  (expensesAt monthlyData (i - 2))
                                  (expensesAt monthlyData (i - 1)))
                           (expensesAt monthlyData i)) |}) /\
    (forall predicted actual, (actual =? 0) = true -> accuracyOf predicted actual = 0) /\
    bind (bind (getMonthlyData fourMonths) backtest) (fun st => Ok (predictions st)) =
    Ok [{| month := "2024-04"; predicted := 200; actual := 240; accuracy := 83.33 |}].
Proof.
  split; [apply Array_sort_sorted|]. split; [apply Array_sort_perm|].
  destruct (backtest_loop monthlyData (List.length (sortedMonths monthlyData) - 3) 3
              {| predictions := []; totalAccuracy := 0; predictionCount := 0 |})
    as (st & Hred & Hp & Hc); [lia | lia | ].
  exists st. split; [exact Hred|]. simpl in Hp.
  split; [now rewrite Hp, length_map, length_seq|].
  split; [|split; [intros p a E; unfold accuracyOf; now rewrite E | vm_compute; reflexivity]].
  intros i Hi. rewrite Hp.
  rewrite nth_error_map, (nth_error_nth' _ 0%nat) by (rewrite length_seq; lia).
  rewrite seq_nth by lia. replace (3 + (i - 3))%nat with i by lia. reflexivity.
Qed.

(* ------------------------------------------------------------------ *)
(** ** mlUtils.generateRecommendations *)
(* ------------------------------------------------------------------ *)

Lemma filterM_inCurrentMonth budget ym transactions :
  inRange ym -> Forall validTransaction transactions ->
  filterM (Server.inCurrentMonth budget (monthKey ym)) transactions =
  Ok (filter (inBudget (Some ym) budget) transactions).
Proof.
  intros R. induction 1 as [|t ts Ht Hts IH]; simpl; [reflexivity|].
  rewrite IH. unfold Server.inCurrentMonth, inBudget.
  destruct (valid_month t Ht) as (ym' & Hm & R' & Hk).
  destruct (String.eqb _ _ && Transaction.isExpense t); simpl; [|reflexivity].
  rewrite Hk. simpl.
  assert (E : String.eqb (monthKey ym') (monthKey ym) = month_eqb (monthOf t) (Some ym)).
  { rewrite <- (hasKey_month ym t R Ht). unfold hasKey. now rewrite Hk. }
  now rewrite E.
Qed.

Lemma budgetStep_eq ym transactions recommendations budget :
  inRange ym -> Forall validTransaction transactions ->
  Server.budgetStep (monthKey ym) transactions recommendations budget =
  Ok (recommendations ++ recommendationsFor (Some ym) transactions budget)%list.
Proof.
  intros R Hv. unfold Server.budgetStep.
  rewrite (filterM_inCurrentMonth budget ym _ R Hv). simpl bind.
  unfold recommendationsFor, Server.overspendMessage.
  fold (total (filter (inBudget (Some ym) budget) transactions)).
  fold (categorySpending (Some ym) transactions budget).
  destruct (Budget.amount budget <? categorySpending (Some ym) transactions budget).
  - reflexivity.
  - now rewrite app_nil_r.
Qed.

Lemma budgetLoop_from ym transactions budgets : forall recommendations,
  inRange ym -> Forall validTransaction transactions ->
  reduceM (Server.budgetStep (monthKey ym) transactions) budgets recommendations =
  Ok (recommendations ++ flat_map (recommendationsFor (Some ym) transactions) budgets)%list.
Proof.
  induction budgets as [|b bs IH]; intros recs R Hv; cbn [reduceM flat_map].
  - now rewrite app_nil_r.
  - rewrite budgetStep_eq by assumption. simpl bind.
    rewrite IH by assumption. now rewrite <- app_assoc.
Qed.

(** The loop over the budgets (lines 114-130), for valid dates: in budget
    order, one high-priority recommendation for each budget whose category
    spending of the current month exceeds its amount, with the overspend
    to two decimals in the message, and nothing for the other budgets. *)
Theorem budgetLoop_recommendations (now : Date) (ym : Z * Z)
  (transactions : list Transaction.t) (budgets : list Budget.t) :
  validDate now -> calendarMonth now = Some ym ->
  Forall validTransaction transactions ->
  Server.isoMonth now = Ok (monthKey ym) /\
  Server.budgetLoop (monthKey ym) transactions budgets =
  Ok (flat_map (recommendationsFor (Some ym) transactions) budgets).
Proof.
  intros Hnow Hym Hv.
  destruct (isoMonth_valid now Hnow) as (ym' & Hym' & R & Hk).
  assert (ym' = ym) by congruence. subst ym'.
  split; [exact Hk|]. unfold Server.budgetLoop.
  now rewrite budgetLoop_from.
Qed.

Lemma budgetLoop_recommendations_witness :
  validDate jan20 /\ calendarMonth jan20 = Some (2024, 0)%Z /\
  Forall validTransaction overspentFood /\
  Server.budgetLoop (monthKey (2024, 0)%Z) overspentFood [foodBudget] =
  Ok (flat_map (recommendationsFor (Some (2024, 0)%Z) overspentFood) [foodBudget]).
Proof.
  assert (H1 : validDate jan20) by (vm_compute; repeat apply conj; discriminate).
  assert (H2 : calendarMonth jan20 = Some (2024, 0)%Z) by (vm_compute; reflexivity).
  assert (H3 : Forall validTransaction overspentFood)
    by (repeat apply Forall_cons; try apply Forall_nil;
        vm_compute; repeat apply conj; discriminate).
  split; [exact H1|]. split; [exact H2|]. split; [exact H3|].
  exact (proj2 (budgetLoop_recommendations jan20 (2024, 0)%Z overspentFood [foodBudget]
                  H1 H2 H3)).
Defined.

(** C4.  The per-budget recommender never returns a value: on every input
    it throws, and on validated input (valid dates; the sample passes
    [validateTransaction]) what it throws is the ReferenceError of the
    unbound [months] at line 133. *)
Theorem generateRecommendations_throws :
  (forall now transactions budgets,
     exists e, Server.generateRecommendations now transactions budgets = Throw e) /\
  (forall now transactions budgets,
     validDate now -> Forall validTransaction transactions ->
     Server.generateRecommendations now transactions budgets
     = Throw (ReferenceError "months")) /\
  Forall (fun t => fst (validateTransaction t) = true) overspentFood /\
  Server.generateRecommendations jan20 overspentFood [foodBudget]
  = Throw (ReferenceError "months").
Proof.
  split; [|split; [|split; [repeat constructor | vm_compute; reflexivity]]].
  - intros now transactions budgets. unfold Server.generateRecommendations.
    destruct (Server.getMonthlyData transactions) as [md|e]; simpl; [|eauto].
    destruct (Server.isoMonth now) as [cm|e]; simpl; [|eauto].
    destruct (Server.budgetLoop cm transactions budgets) as [recs|e]; simpl; eauto.
  - intros now transactions budgets Hnow Hv.
    destruct (getMonthlyData_get transactions Hv) as (md & Hmd & _).
    destruct (isoMonth_valid now Hnow) as (ym & _ & R & Hk).
    unfold Server.generateRecommendations, Server.budgetLoop.
    rewrite Hmd. simpl bind. rewrite Hk. simpl bind.
    rewrite (budgetLoop_from ym transactions budgets [] R Hv). reflexivity.
Qed.

(** C5.  A food budget of 100 and 150 spent on food in the current month:
    the loop over the budgets builds the recommendation the specification
    gives, and the function then throws at line 133 instead of returning
    it. *)
Theorem budget_recommendation_lost :
  Server.isoMonth jan20 = Ok "2024-01" /\
  Server.budgetLoop "2024-01" overspentFood [foodBudget] =
  Ok [{| Server.category := "food";
         Server.message := "Reduce spending in food by $50.00";
         Server.priority := "high" |}] /\
  Server.generateRecommendations jan20 overspentFood [foodBudget]
  = Throw (ReferenceError "months").
Proof. repeat apply conj; vm_compute; reflexivity. Qed.

(** C6.  January expenses 100, February expenses 200, called in February
    with no budgets: the current month exceeds 1.1 times the previous one,
    and the function throws instead of returning the general
    recommendation. *)
Theorem general_recommendation_unreachable :
  Server.getMonthlyData risingSpending =
  Ok [("2024-02", {| Server.expenses := 200; Server.income := 0 |});
      ("2024-01", {| Server.expenses := 100; Server.income := 0 |})] /\
  Server.isoMonth feb20 = Ok "2024-02" /\
  (100 * 0x1.199999999999ap+0 <? 200) = true /\
  Server.generateRecommendations feb20 risingSpending [] = Throw (ReferenceError "months").
Proof. repeat apply conj; vm_compute; reflexivity. Qed.

(* ================================================================== *)
(** * backend/utils/mlModel.js: properties                        *)
(* ================================================================== *)

Lemma slope_single (t : Transaction.t) : MlModel.slope [t] = nan.
Proof.
  unfold MlModel.slope. cbn [List.length seq map fold_left MlModel.reduce_indexed nth].
  change (of_nat 0) with 0. change (of_nat 1) with 1.
  apply (float_by_spec _ S754_nan).
  repeat rewrite ?FloatAxioms.div_spec, ?FloatAxioms.sub_spec,
    ?FloatAxioms.mul_spec, ?FloatAxioms.add_spec.
  change (Prim2SF 0) with (S754_zero false).
  change (Prim2SF 1) with (S754_finite false 4503599627370496 (-52)).
  destruct (Prim2SF (Transaction.amount t)) as [[]|[]| |[] m e]; reflexivity.
Qed.

(** C7.  On the amounts 10, 20, 30 the fit is slope 10 and intercept 10,
    and the function evaluates the line at [n + 1 = 4], not at [n = 3]: it
    returns 50, not 40. *)
Theorem regression_predicts_one_step_late :
  MlModel.slope tenTwentyThirty = 10 /\
  MlModel.intercept tenTwentyThirty = 10 /\
  MlModel.calculateSpendingPrediction tenTwentyThirty = 50.
Proof. repeat apply conj; vm_compute; reflexivity. Qed.

(** C8.  With fewer than two data points the denominator
    [n * sumXX - sumX * sumX] is zero; the division is not guarded and the
    prediction is [NaN], for the empty history and for every history of one
    point, where the specification defines it as 0. *)
Theorem regression_undefined_below_two_points :
  MlModel.calculateSpendingPrediction [] = nan /\
  forall t : Transaction.t, MlModel.calculateSpendingPrediction [t] = nan.
Proof.
  split; [vm_compute; reflexivity|].
  intros t. unfold MlModel.calculateSpendingPrediction.
  rewrite slope_single, mul_nan_l, add_nan_l. vm_compute. reflexivity.
Qed.

(* ================================================================== *)
(** * backend/utils/recommendations.js: properties                *)
(* ================================================================== *)

Lemma inherited_false c :
  Recommendations.inherited c = false ->
  c <> "__proto__" /\ Recommendations.inheritedFunction c = None.
Proof.
  unfold Recommendations.inherited.
  destruct (Recommendations.inheritedFunction c); [discriminate|].
  intros H. split; [|reflexivity]. now apply String.eqb_neq.
Qed.

Lemma addToCategory_other acc t c :
  Transaction.category t <> c ->
  Obj_get (Recommendations.addToCategory acc t) c = Obj_get acc c.
Proof.
  intros Hne. unfold Recommendations.addToCategory. cbv zeta.
  destruct (String.eqb (Transaction.category t) "__proto__"); [reflexivity|].
  now apply Obj_get_set_other.
Qed.

Lemma addToCategory_key acc t c :
  Obj_get (Recommendations.addToCategory acc t) c <> None <->
  Obj_get acc c <> None \/ (c <> "__proto__" /\ Transaction.category t = c).
Proof.
  unfold Recommendations.addToCategory. cbv zeta.
  destruct (String.eqb_spec (Transaction.category t) "__proto__") as [Hp|Hp].
  - split; [auto|]. intros [H|[H1 H2]]; [assumption | congruence].
  - destruct (String.eqb_spec (Transaction.category t) c) as [<-|Hne].
    + rewrite Obj_get_set_same. split; [auto | discriminate].
    + rewrite Obj_get_set_other by assumption. tauto.
Qed.

Lemma fold_addToCategory_key es : forall acc c,
  Obj_get (fold_left Recommendations.addToCategory es acc) c <> None <->
  Obj_get acc c <> None \/
  (c <> "__proto__" /\ exists t, In t es /\ Transaction.category t = c).
Proof.
  induction es as [|t es IH]; intros acc c; simpl.
  - split; [auto|]. intros [H|(_ & t & [] & _)]. exact H.
  - rewrite IH, addToCategory_key. split.
    + intros [[H|[H1 H2]]|(H1 & t' & H2 & H3)]; eauto 8.
    + intros [H|(H1 & t' & [<-|H2] & H3)]; eauto 8.
Qed.

(** The totals have a key exactly for the categories of the expenses,
    [__proto__] apart. *)
Lemma categoryTotals_keys transactions c :
  In c (Object_keys (Recommendations.categoryTotals transactions)) <->
  c <> "__proto__" /\
  exists t, In t transactions /\ Transaction.isExpense t = true /\
            Transaction.category t = c.
Proof.
  rewrite Object_keys_In. unfold Recommendations.categoryTotals.
  rewrite fold_addToCategory_key. simpl. split.
  - intros [H|(H1 & t & H2 & H3)]; [congruence|].
    apply filter_In in H2 as [H2 H4]. eauto 6.
  - intros (H1 & t & H2 & H3 & H4). right. split; [assumption|].
    exists t. split; [|assumption]. apply filter_In. auto.
Qed.


Lemma valueOr0_nonneg acc k : sumAt acc k -> nonneg (valueOr0 (Obj_get acc k)) = true.
Proof.
  unfold sumAt. destruct (Obj_get acc k) as [[v|n r]|]; simpl; auto.
Qed.

(** Under a name that is not inherited, a number is added to a number. *)
Lemma addToCategory_plain acc t :
  Recommendations.inherited (Transaction.category t) = false ->
  sumAt acc (Transaction.category t) ->
  Obj_get (Recommendations.addToCategory acc t) (Transaction.category t) =
  Some (Recommendations.Sum
          (valueOr0 (Obj_get acc (Transaction.category t)) + Transaction.amount t)).
Proof.
  intros Hi Hs. destruct (inherited_false _ Hi) as [Hp Hf].
  unfold Recommendations.addToCategory. cbv zeta.
  replace (String.eqb (Transaction.category t) "__proto__") with false
    by (symmetry; now apply String.eqb_neq).
  rewrite Obj_get_set_same. unfold sumAt in Hs.
  destruct (Obj_get acc (Transaction.category t)) as [[v|n r]|]; simpl.
  - now rewrite truthy_or_zero.
  - destruct Hs.
  - now rewrite Hf.
Qed.

Lemma fold_amounts_nonneg ts : forall v,
  Forall positiveAmount ts -> nonneg v = true ->
  nonneg (fold_left (fun a t => a + Transaction.amount t) ts v) = true.
Proof.
  induction ts as [|t ts IH]; intros v Hp Hv; simpl; [assumption|].
  inversion Hp; subst. apply IH; [assumption|].
  apply add_nonneg; [assumption | now apply positive_nonneg].
Qed.

Lemma fold_addToCategory es : forall acc c,
  Recommendations.inherited c = false ->
  Forall positiveAmount es -> sumAt acc c ->
  Obj_get (fold_left Recommendations.addToCategory es acc) c =
  match filter (inCategory c) es with
  | [] => Obj_get acc c
  | txs => Some (Recommendations.Sum
                   (fold_left (fun a t => a + Transaction.amount t) txs
                              (valueOr0 (Obj_get acc c))))
  end.
Proof.
  induction es as [|t es IH]; intros acc c Hi Hp Hs; simpl; [reflexivity|].
  inversion Hp as [|? ? Ht Hes]; subst. unfold inCategory at 1.
  destruct (String.eqb_spec (Transaction.category t) c) as [<-|Hne].
  - pose proof (addToCategory_plain acc t Hi Hs) as E.
    rewrite IH; try assumption.
    + rewrite E. simpl valueOr0.
      now destruct (filter (inCategory (Transaction.category t)) es).
    + unfold sumAt. rewrite E. apply add_nonneg;
        [now apply valueOr0_nonneg | now apply positive_nonneg].
  - rewrite IH; try assumption.
    + now rewrite addToCategory_other.
    + unfold sumAt. now rewrite addToCategory_other.
Qed.

Lemma categoryTotals_get transactions c :
  Recommendations.inherited c = false ->
  Forall positiveAmount transactions ->
  Obj_get (Recommendations.categoryTotals transactions) c =
  match filter (inCategory c) (filter Transaction.isExpense transactions) with
  | [] => None
  | _ => Some (Recommendations.Sum (categoryExpense transactions c))
  end.
Proof.
  intros Hi Hp. unfold Recommendations.categoryTotals.
  rewrite fold_addToCategory.
  - unfold categoryExpense, total. simpl.
    now destruct (filter (inCategory c) _).
  - assumption.
  - apply Forall_forall. intros t Ht. apply filter_In in Ht as [Ht _].
    rewrite Forall_forall in Hp. auto.
  - exact I.
Qed.

Lemma categoryExpense_nonneg transactions c :
  Forall positiveAmount transactions -> nonneg (categoryExpense transactions c) = true.
Proof.
  intros Hp. apply fold_amounts_nonneg; [|reflexivity].
  apply Forall_forall. intros t Ht. rewrite !filter_In in Ht.
  rewrite Forall_forall in Hp. now apply Hp.
Qed.

(** With positive amounts and no inherited name among the categories,
    every key holds the total expense of its category. *)
Lemma categoryTotals_sum transactions c :
  Forall positiveAmount transactions -> Forall plainCategory transactions ->
  In c (Object_keys (Recommendations.categoryTotals transactions)) ->
  Obj_get (Recommendations.categoryTotals transactions) c =
  Some (Recommendations.Sum (categoryExpense transactions c)).
Proof.
  intros Hp Hc Hin. apply categoryTotals_keys in Hin as (_ & t & Hin & He & <-).
  rewrite Forall_forall in Hc.
  rewrite categoryTotals_get by (try assumption; now apply Hc).
  destruct (filter _ _) as [|t0 F] eqn:E; [|reflexivity].
  exfalso. rewrite filter_nil_iff in E. specialize (E t).
  rewrite filter_In in E. unfold inCategory in E.
  rewrite String.eqb_refl in E. now discriminate E.
Qed.

Lemma fold_left_agree {A} (P : A -> Prop) (g g' : A -> A -> A) l : forall a,
  (forall x y, P x -> P y -> g x y = g' x y /\ P (g x y)) ->
  P a -> Forall P l -> fold_left g l a = fold_left g' l a.
Proof.
  induction l as [|b l IH]; intros a H Ha Hl; simpl; [reflexivity|].
  inversion Hl as [|? ? Hb Hl']; subst.
  destruct (H a b Ha Hb) as [E Hg]. rewrite <- E. now apply IH.
Qed.

(** The scan of [reduce]: the candidate is kept while it is strictly
    greater, so the last key of the highest total wins. *)
Lemma scan_last_highest (f : string -> Number) ks : forall pre a mid,
  (forall x, In x (pre ++ a :: mid ++ ks)%list -> nonneg (f x) = true) ->
  (forall x, In x pre -> (f x <=? f a) = true) ->
  (forall x, In x mid -> (f x <? f a) = true) ->
  exists before after,
    (pre ++ a :: mid ++ ks)%list =
    (before ++ fold_left (fun a b => if f b <? f a then a else b) ks a :: after)%list /\
    (forall x, In x before ->
       (f x <=? f (fold_left (fun a b => if f b <? f a then a else b) ks a)) = true) /\
    (forall x, In x after ->
       (f x <? f (fold_left (fun a b => if f b <? f a then a else b) ks a)) = true).
Proof.
  induction ks as [|b ks IH]; intros pre a mid Hnn Hpre Hmid; simpl.
  - exists pre, mid. rewrite app_nil_r. auto.
  - destruct (f b <? f a) eqn:E.
    + destruct (IH pre a (mid ++ [b])%list) as (before & after & Heq & Hb & Ha).
      * intros x Hx. apply Hnn. rewrite <- app_assoc in Hx. exact Hx.
      * assumption.
      * intros x Hx. apply in_app_iff in Hx as [Hx|[<-|[]]]; auto.
      * exists before, after. rewrite <- app_assoc in Heq. auto.
    + assert (Hab : (f a <=? f b) = true).
      { apply ltb_false_leb; try assumption; apply Hnn;
          rewrite !in_app_iff; simpl; rewrite in_app_iff; simpl; auto. }
      destruct (IH (pre ++ a :: mid)%list b []) as (before & after & Heq & Hb & Ha).
      * intros x Hx. apply Hnn. simpl in Hx. rewrite <- app_assoc in Hx. exact Hx.
      * intros x Hx.
        assert (Hxa : (f x <=? f a) = true).
        { apply in_app_iff in Hx as [Hx|[<-|Hx]].
          - auto.
          - apply leb_refl. apply Hnn. rewrite in_app_iff. simpl. auto.
          - apply ltb_leb. auto. }
        apply (leb_trans (f x) (f a) (f b)); try assumption; apply Hnn.
        -- rewrite in_app_iff in Hx |- *. simpl in Hx |- *. rewrite in_app_iff.
           tauto.
        -- rewrite in_app_iff. simpl. auto.
        -- rewrite !in_app_iff. simpl. rewrite in_app_iff. simpl. auto.
      * intros x [].
      * exists before, after. simpl in Heq. rewrite <- app_assoc in Heq. auto.
Qed.

(** C10, the claim as stated fails.  Food and rent both total 300, and
    [Object.keys] lists food first: the first key of the highest total is
    food, and the warning names rent. *)
Lemma surplus_mode_tie_names_last_key :
  Object_keys (Recommendations.categoryTotals tiedExpenses) = ["food"; "rent"] /\
  categoryExpense tiedExpenses "food" = 300 /\
  categoryExpense tiedExpenses "rent" = 300 /\
  firstHighest (Recommendations.categoryTotals tiedExpenses)
               (Object_keys (Recommendations.categoryTotals tiedExpenses)) = Some "food" /\
  Recommendations.generateRecommendations tiedExpenses 500 =
  Ok {| Recommendations.type := "warning";
        Recommendations.message :=
          "Over budget by $100. Consider reducing spending in rent." |}.
Proof. repeat apply conj; vm_compute; reflexivity. Qed.

(** C10, as amended.  With positive amounts and no category that bears the
    name of a property every object inherits ([constructor], [toString],
    [__proto__] and the like), the surplus is the monthly budget minus the
    total of the expense amounts.  When it is positive the result is the
    one positive-type message with the 70/30 split.  When it is not, and
    there is an expense transaction, the result is the one warning carrying
    [|surplus|] and naming a category [top] of the highest total expense:
    no key before it in [Object.keys] order has a greater total and every
    key after it has a strictly smaller one, so among equal totals the last
    key is named.  With a budget of 500 and expenses of 600 the warning
    reads "Over budget by $100" and names the top category. *)
Theorem surplus_mode_advice (transactions : list Transaction.t) (monthlyBudget : Number) :
  Forall positiveAmount transactions ->
  Forall plainCategory transactions ->
  ((0 <? monthlyBudget - totalExpenses transactions) = true ->
   Recommendations.generateRecommendations transactions monthlyBudget =
   Ok {| Recommendations.type := "positive";
         Recommendations.message :=
           "You have a surplus of $" ++
           Number_toString (monthlyBudget - totalExpenses transactions) ++
           ". Recommend: 70% to savings, 30% to emergency fund." |}) /\
  ((0 <? monthlyBudget - totalExpenses transactions) = false ->
   (exists t, In t transactions /\ Transaction.isExpense t = true) ->
   exists top before after,
     Recommendations.generateRecommendations transactions monthlyBudget =
     Ok {| Recommendations.type := "warning";
           Recommendations.message :=
             "Over budget by $" ++
             Number_toString (Math_abs (monthlyBudget - totalExpenses transactions)) ++
             ". Consider reducing spending in " ++ top ++ "." |} /\
     Object_keys (Recommendations.categoryTotals transactions)
       = (before ++ top :: after)%list /\
     (forall c, In c before ->
        (categoryExpense transactions c <=? categoryExpense transactions top) = true) /\
     (forall c, In c after ->
        (categoryExpense transactions c <? categoryExpense transactions top) = true)) /\
  Recommendations.generateRecommendations overBudget 500 =
  Ok {| Recommendations.type := "warning";
        Recommendations.message :=
          "Over budget by $100. Consider reducing spending in food." |}.
Proof.
  intros Hp Hc. split; [|split; [|vm_compute; reflexivity]].
  - intros Hs. unfold Recommendations.generateRecommendations.
    fold (total (filter Transaction.isExpense transactions)).
    fold (totalExpenses transactions). now rewrite Hs.
  - intros Hs (t & Hin & He).
    unfold Recommendations.generateRecommendations.
    fold (total (filter Transaction.isExpense transactions)).
    fold (totalExpenses transactions). rewrite Hs.
    unfold Recommendations.findTopExpenseCategory, Recommendations.topOf.
    assert (Hk : In (Transaction.category t)
                    (Object_keys (Recommendations.categoryTotals transactions))).
    { apply categoryTotals_keys. split; [|eauto].
      rewrite Forall_forall in Hc. now apply (inherited_false _ (Hc t Hin)). }
    pose proof (categoryTotals_sum transactions) as Hsum.
    destruct (Object_keys (Recommendations.categoryTotals transactions))
      as [|k ks] eqn:Ek; [destruct Hk|].
    set (f := categoryExpense transactions).
    assert (Hf : forall x, In x (k :: ks) ->
                   Obj_get (Recommendations.categoryTotals transactions) x
                   = Some (Recommendations.Sum (f x)))
      by (intros x Hx; now apply Hsum).
    rewrite (fold_left_agree (fun x => In x (k :: ks)) _
               (fun a b => if f b <? f a then a else b));
      [ | | now left | apply Forall_forall; intros x Hx; now right ].
    + destruct (scan_last_highest f ks [] k []) as (before & after & Heq & Hb & Ha).
      * intros x Hx. simpl in Hx. now apply categoryExpense_nonneg.
      * intros x [].
      * intros x [].
      * simpl in Heq.
        exists (fold_left (fun a b => if f b <? f a then a else b) ks k),
          before, after.
        simpl bind. auto.
    + intros x y Hx Hy. rewrite (Hf x Hx), (Hf y Hy). simpl.
      split; [reflexivity|]. now destruct (f y <? f x).
Qed.

Lemma surplus_mode_advice_witness :
  Forall positiveAmount overBudget /\
  Forall plainCategory overBudget /\
  Recommendations.generateRecommendations overBudget 500 =
  Ok {| Recommendations.type := "warning";
        Recommendations.message :=
          "Over budget by $100. Consider reducing spending in food." |}.
Proof.
  assert (H : Forall positiveAmount overBudget) by (repeat constructor).
  assert (H' : Forall plainCategory overBudget) by (repeat constructor).
  split; [exact H|]. split; [exact H'|].
  exact (proj2 (proj2 (surplus_mode_advice overBudget 500 H H'))).
Defined.

(* ================================================================== *)
(** * backend/server.js: validation, scores, dates and routes          *)
(* ================================================================== *)

(* ------------------------------------------------------------------ *)
(** ** Numbers: comparisons with zero and clamping *)
(* ------------------------------------------------------------------ *)

Lemma SFcompare_refl_any s m e :
  SFcompare (S754_finite s m e) (S754_finite s m e) = Some Eq.
Proof.
  destruct s; simpl; rewrite Z.compare_refl, Pos.compare_cont_refl; reflexivity.
Qed.

Lemma ltb_not_nan x y : (x <? y) = true -> isNaN x = false /\ isNaN y = false.
Proof.
  unfold isNaN. rewrite FloatAxioms.ltb_spec, !FloatAxioms.eqb_spec.
  unfold SFltb, SFeqb.
  destruct (Prim2SF x) as [[]|[]| |sx mx ex], (Prim2SF y) as [[]|[]| |sy my ey];
    try discriminate; intros _; rewrite ?SFcompare_refl_any; split; reflexivity.
Qed.

(** [!x || x <= 0] is the negation of [x > 0]. *)
Lemma not_positive x : negb (truthy x) || (x <=? 0) = negb (0 <? x).
Proof.
  unfold truthy, isNaN.
  rewrite !FloatAxioms.eqb_spec, FloatAxioms.leb_spec, FloatAxioms.ltb_spec,
    Prim2SF_zero.
  unfold SFeqb at 1.
  destruct (Prim2SF x) as [[]|[]| |[] m e]; rewrite ?SFcompare_refl_any; reflexivity.
Qed.

Lemma Math_max_0 y :
  (isNaN y = true /\ Math_max 0 y = nan) \/
  (isNaN y = false /\ Math_max 0 y = 0) \/
  ((0 <? y) = true /\ Math_max 0 y = y).
Proof.
  unfold Math_max. change (isNaN 0) with false. simpl orb.
  destruct (isNaN y) eqn:N; [now left|].
  destruct (0 <? y) eqn:P; [now right; right|].
  right; left. split; [reflexivity|].
  now destruct (y <? 0).
Qed.

Lemma Math_min_100 z :
  (isNaN z = true /\ Math_min 100 z = nan) \/
  (isNaN z = false /\ Math_min 100 z = 100) \/
  ((z <? 100) = true /\ Math_min 100 z = z).
Proof.
  unfold Math_min. change (isNaN 100) with false. simpl orb.
  destruct (isNaN z) eqn:N; [now left|].
  destruct (100 <? z) eqn:P; [now right; left|].
  destruct (z <? 100) eqn:Q; [now right; right|].
  now right; left.
Qed.

(* ------------------------------------------------------------------ *)
(** ** Request validation, the accuracy score and the confidence *)
(* ------------------------------------------------------------------ *)

(** The request validation (lines 62-68), on a body whose [amount] is a
    number and whose [category] and [type] are strings: it accepts exactly
    when the amount is greater than 0 (so neither 0 nor [NaN]), the
    category is not empty and the type is [income] or [expense]; and it
    accepts exactly when it reports no error. *)
Theorem validateTransaction_accepts (data : Transaction.t) :
  (fst (validateTransaction data) = true <->
   (0 <? Transaction.amount data) = true /\
   Transaction.category data <> "" /\
   (Transaction.type data = "income" \/ Transaction.type data = "expense")) /\
  (fst (validateTransaction data) = true <-> snd (validateTransaction data) = []).
Proof.
  unfold validateTransaction. rewrite not_positive. simpl existsb.
  destruct (0 <? Transaction.amount data);
    destruct (String.eqb_spec (Transaction.category data) "") as [Hc|Hc];
    destruct (String.eqb_spec (Transaction.type data) "income") as [Hi|Hi];
    destruct (String.eqb_spec (Transaction.type data) "expense") as [He|He];
    simpl; (split; split; try discriminate; try tauto; try congruence).
Qed.

(** [calculateAccuracy] (lines 72-76) returns [NaN] or a number from 0 to
    100, whatever its arguments. *)
Theorem calculateAccuracy_range (predicted actual : Number) :
  isNaN (calculateAccuracy predicted actual) = true \/
  ((0 <=? calculateAccuracy predicted actual) = true /\
   (calculateAccuracy predicted actual <=? 100) = true).
Proof.
  unfold calculateAccuracy. destruct (actual =? 0); [now right|].
  cbv zeta. set (raw := (1 - Math_abs (predicted - actual) / actual) * 100).
  destruct (Math_max_0 raw) as [[_ ->]|[[_ ->]|[P ->]]];
    [now left | now right |].
  destruct (Math_min_100 raw) as [[N _]|[[_ ->]|[Q ->]]].
  - apply ltb_not_nan in P. destruct P; congruence.
  - now right.
  - right. split; now apply ltb_leb.
Qed.

(** A prediction that equals a finite, non-zero actual value scores 100. *)
Theorem calculateAccuracy_exact (actual : Number) :
  finiteNonzero actual = true -> calculateAccuracy actual actual = 100.
Proof.
  unfold finiteNonzero. intros F.
  destruct (Prim2SF actual) as [| | |s m e] eqn:E; try discriminate.
  unfold calculateAccuracy.
  assert (Z : (actual =? 0) = false).
  { rewrite FloatAxioms.eqb_spec, E. now destruct s. }
  rewrite Z. cbv zeta.
  assert (D : actual - actual = 0).
  { apply (float_by_spec _ (S754_zero false)).
    rewrite FloatAxioms.sub_spec, E. unfold SF64sub, SFsub.
    now rewrite Z.sub_diag. }
  rewrite D. change (Math_abs 0) with 0.
  assert (Q : 1 - 0 / actual = 1).
  { apply (float_by_spec _ (Prim2SF 1)).
    rewrite FloatAxioms.sub_spec, FloatAxioms.div_spec, E. reflexivity. }
  rewrite Q. vm_compute. reflexivity.
Qed.

Lemma calculateAccuracy_exact_witness :
  finiteNonzero 240 = true /\ calculateAccuracy 240 240 = 100.
Proof.
  split; [reflexivity|]. apply (calculateAccuracy_exact 240). reflexivity.
Defined.

(** [calculateConfidence] (lines 146-152) returns 0 for fewer than two
    values, and otherwise [NaN] or a number from 0 to 100. *)
Theorem calculateConfidence_range (data : list Number) :
  ((List.length data < 2)%nat -> calculateConfidence data = 0) /\
  (isNaN (calculateConfidence data) = true \/
   ((0 <=? calculateConfidence data) = true /\
    (calculateConfidence data <=? 100) = true)).
Proof.
  unfold calculateConfidence.
  destruct (Nat.ltb_spec (List.length data) 2) as [Hlt|Hge].
  - split; [reflexivity | now right].
  - split; [lia|]. cbv zeta.
    match goal with |- context [Math_min 100 ?x] => set (raw := x) end.
    destruct (Math_min_100 raw) as [[_ ->]|[[_ ->]|[Q ->]]];
      [now left | now right |].
    destruct (Math_max_0 raw) as [[N _]|[[_ ->]|[P ->]]].
    + apply ltb_not_nan in Q. destruct Q; congruence.
    + now right.
    + right. split; now apply ltb_leb.
Qed.

(* ------------------------------------------------------------------ *)
(** ** The month keys: their order, and the month they stand for *)
(* ------------------------------------------------------------------ *)

Lemma String_compare_refl s : String.compare s s = Eq.
Proof.
  pose proof (String.compare_antisym s s) as H.
  destruct (String.compare s s); simpl in H; congruence.
Qed.

Lemma String_compare_trans a b c :
  String.compare a b = Lt -> String.compare b c = Lt -> String.compare a c = Lt.
Proof.
  rewrite (String_compare_as_OT a b), (String_compare_as_OT b c),
    (String_compare_as_OT a c).
  intros Hab Hbc.
  exact (RelationClasses.StrictOrder_Transitive
           (R := OrdersEx.String_as_OT.lt) a b c Hab Hbc).
Qed.

Lemma String_compare_append a a' b b' :
  String.length a = String.length a' ->
  String.compare (a ++ b) (a' ++ b') =
  match String.compare a a' with
  | Eq => String.compare b b'
  | c => c
  end.
Proof.
  revert a'. induction a as [|x a IH]; destruct a' as [|x' a']; simpl;
    try discriminate; [reflexivity|].
  intros [= H]. destruct (Ascii.compare x x'); auto.
Qed.

Lemma pad_ascending k n :
  all_below n (pad_ascends k) = true ->
  forall d a, (0 <= a)%Z -> (a + 1 + Z.of_nat d <= Z.of_nat n)%Z ->
  String.compare (pad k a) (pad k (a + 1 + Z.of_nat d)) = Lt.
Proof.
  intros T.
  assert (Hstep : forall a, (0 <= a < Z.of_nat n)%Z ->
                    String.compare (pad k a) (pad k (a + 1)) = Lt).
  { intros a Ha. pose proof (all_below_spec _ _ T a Ha) as H.
    unfold pad_ascends in H. now destruct (String.compare _ _). }
  induction d as [|d IH]; intros a Ha Hn.
  - rewrite Z.add_0_r. apply Hstep. lia.
  - apply (String_compare_trans _ (pad k (a + 1 + Z.of_nat d))).
    + apply IH; lia.
    + replace (a + 1 + Z.of_nat (S d))%Z with (a + 1 + Z.of_nat d + 1)%Z by lia.
      apply Hstep. lia.
Qed.

Lemma pad_compare k n a b :
  all_below n (pad_ascends k) = true ->
  (0 <= a <= Z.of_nat n)%Z -> (0 <= b <= Z.of_nat n)%Z ->
  String.compare (pad k a) (pad k b) = Z.compare a b.
Proof.
  intros T Ha Hb. destruct (Z.compare_spec a b) as [->|Hlt|Hgt].
  - apply String_compare_refl.
  - replace b with (a + 1 + Z.of_nat (Z.to_nat (b - a - 1)))%Z by lia.
    apply (pad_ascending k n T); lia.
  - rewrite String.compare_antisym.
    replace a with (b + 1 + Z.of_nat (Z.to_nat (a - b - 1)))%Z at 1 by lia.
    rewrite (pad_ascending k n T); [reflexivity | lia | lia].
Qed.

Lemma year_order : all_below (Z.to_nat 9999) (pad_ascends 4) = true.
Proof. vm_compute. reflexivity. Qed.

Lemma month_order : all_below (Z.to_nat 12) (pad_ascends 2) = true.
Proof. vm_compute. reflexivity. Qed.

Lemma monthKey_compare ym ym' :
  inRange ym -> inRange ym' ->
  String.compare (monthKey ym) (monthKey ym') =
  match Z.compare (fst ym) (fst ym') with
  | Eq => Z.compare (snd ym) (snd ym')
  | c => c
  end.
Proof.
  intros [Hy Hm] [Hy' Hm']. unfold monthKey.
  destruct (pad_year _ Hy) as [Ly _], (pad_year _ Hy') as [Ly' _].
  rewrite String_compare_append by congruence.
  rewrite (pad_compare 4 _ _ _ year_order) by (rewrite Z2Nat.id; lia).
  destruct (Z.compare (fst ym) (fst ym')); try reflexivity.
  change ("-" ++ ?s) with (String "-" s). simpl String.compare.
  rewrite (pad_compare 2 _ _ _ month_order) by (rewrite Z2Nat.id; lia).
  rewrite !(Z.add_comm _ 1). apply Z.add_compare_mono_l.
Qed.

Lemma monthKey_before ym ym' :
  inRange ym -> inRange ym' ->
  String.leb (monthKey ym) (monthKey ym') = true -> monthKey ym <> monthKey ym' ->
  monthLt ym ym'.
Proof.
  intros R R' Hle Hne. unfold String.leb in Hle.
  pose proof (monthKey_compare ym ym' R R') as C.
  destruct (String.compare (monthKey ym) (monthKey ym')) eqn:E; try discriminate.
  - apply String.compare_eq_iff in E. contradiction.
  - unfold monthLt.
    destruct (Z.compare_spec (fst ym) (fst ym')); try discriminate; [|lia].
    destruct (Z.compare_spec (snd ym) (snd ym')); try discriminate. lia.
Qed.

Lemma monthOfKey_monthKey ym : inRange ym -> monthOfKey (monthKey ym) = ym.
Proof.
  intros R. unfold monthOfKey. rewrite (readKey_monthKey _ R).
  destruct ym as [y m]. simpl. f_equal. lia.
Qed.

Lemma StronglySorted_map {A B} (R : A -> A -> Prop) (R' : B -> B -> Prop)
  (f : A -> B) (l : list A) :
  (forall x y, In x l -> In y l -> R x y -> x <> y -> R' (f x) (f y)) ->
  StronglySorted R l -> NoDup l -> StronglySorted R' (map f l).
Proof.
  intros Hf Hs. induction Hs as [|x l Hs IH Hall]; intros Hnd; simpl.
  - constructor.
  - inversion Hnd as [|? ? Hx Hnd']; subst. constructor.
    + apply IH; [|assumption]. intros; apply Hf; simpl; auto.
    + rewrite Forall_forall in Hall |- *. intros b Hb.
      apply in_map_iff in Hb as (y & <- & Hy).
      apply Hf; simpl; auto. intros ->. contradiction.
Qed.

(** The array [months] of lines 97 and 235, for transactions with valid
    dates (four-digit years): sorting the keys as strings puts the months
    of the history in chronological order, each month once. *)
Theorem sortedMonths_chronological (transactions : list Transaction.t) :
  Forall validTransaction transactions ->
  exists monthlyData months,
    getMonthlyData transactions = Ok monthlyData /\
    Array_sort (Object_keys monthlyData) = map monthKey months /\
    StronglySorted monthLt months /\
    (forall ym, In ym months <->
                exists t, In t transactions /\ monthOf t = Some ym).
Proof.
  intros Hv. destruct (getMonthlyData_get transactions Hv) as (md & Hmd & Hnd & Hget).
  assert (Hkeys := fun k => key_present transactions md k Hv Hget).
  pose proof Hv as Hv'. rewrite Forall_forall in Hv'.
  assert (Hperm : Permutation (sortedMonths md) (map fst md)).
  { unfold sortedMonths. rewrite Array_sort_perm. apply Object_keys_perm. }
  assert (Hk : forall k, In k (sortedMonths md) ->
                 exists ym, inRange ym /\ k = monthKey ym /\
                            exists t, In t transactions /\ monthOf t = Some ym).
  { intros k Hin. apply (Permutation_in _ Hperm), Obj_get_In, Hkeys in Hin.
    destruct Hin as (t & ym & Hin & Hm & ->).
    destruct (valid_month t (Hv' t Hin)) as (ym' & Hm' & R & _).
    assert (ym' = ym) by congruence. subst. eauto 6. }
  exists md, (map monthOfKey (sortedMonths md)).
  split; [exact Hmd|]. fold (sortedMonths md). split; [|split].
  - rewrite map_map. rewrite <- (map_id (sortedMonths md)) at 1.
    apply map_ext_in. intros k Hin.
    destruct (Hk k Hin) as (ym & R & -> & _). now rewrite monthOfKey_monthKey.
  - apply (StronglySorted_map (fun a b => String.leb a b = true)).
    + intros k k' Hin Hin' Hle Hne.
      destruct (Hk k Hin) as (ym & R & -> & _), (Hk k' Hin') as (ym' & R' & -> & _).
      rewrite !monthOfKey_monthKey by assumption. now apply monthKey_before.
    + apply Array_sort_sorted.
    + apply (Permutation_NoDup (Permutation_sym Hperm)). exact Hnd.
  - intros ym. rewrite in_map_iff. split.
    + intros (k & <- & Hin). destruct (Hk k Hin) as (ym & R & -> & Ht).
      now rewrite monthOfKey_monthKey.
    + intros (t & Hin & Hm).
      destruct (valid_month t (Hv' t Hin)) as (ym' & Hm' & R & _).
      assert (ym' = ym) by congruence. subst ym'.
      exists (monthKey ym). split; [now apply monthOfKey_monthKey|].
      apply (Permutation_in _ (Permutation_sym Hperm)), Obj_get_In, Hkeys. eauto.
Qed.

Lemma sortedMonths_chronological_witness :
  Forall validTransaction risingSpending /\
  exists monthlyData,
    getMonthlyData risingSpending = Ok monthlyData /\
    Array_sort (Object_keys monthlyData) = ["2024-01"; "2024-02"].
Proof.
  assert (H : Forall validTransaction risingSpending)
    by (repeat apply Forall_cons; try apply Forall_nil;
        vm_compute; repeat apply conj; discriminate).
  split; [exact H|].
  destruct (sortedMonths_chronological risingSpending H) as (md & months & Hmd & _).
  exists md. split; [exact Hmd|].
  assert (E : getMonthlyData risingSpending =
              Ok [("2024-02", {| expenses := 200; income := 0 |});
                  ("2024-01", {| expenses := 100; income := 0 |})])
    by (vm_compute; reflexivity).
  rewrite E in Hmd. injection Hmd as <-. vm_compute. reflexivity.
Defined.

(** The key of line 80, for valid dates (four-digit years): it has seven
    characters and reads back as the calendar month (UTC) of the date, so
    two dates get the same key exactly when they fall in the same calendar
    month. *)
Theorem isoMonth_same_month (d d' : Date) :
  validDate d -> validDate d' ->
  (exists k, isoMonth d = Ok k /\ String.length k = 7%nat /\
             Some (monthOfKey k) = calendarMonth d) /\
  (isoMonth d = isoMonth d' <-> calendarMonth d = calendarMonth d').
Proof.
  intros Hd Hd'.
  destruct (isoMonth_valid d Hd) as (ym & Hc & R & Hk).
  destruct (isoMonth_valid d' Hd') as (ym' & Hc' & R' & Hk').
  split.
  - exists (monthKey ym). split; [exact Hk|].
    split; [now apply monthKey_length|].
    now rewrite monthOfKey_monthKey, Hc.
  - rewrite Hk, Hk', Hc, Hc'. split.
    + intros [= H]. f_equal. now apply monthKey_inj.
    + intros [= ->]. reflexivity.
Qed.

Lemma isoMonth_same_month_witness :
  validDate jan15 /\ validDate jan20 /\ isoMonth jan15 = isoMonth jan20.
Proof.
  assert (H1 : validDate jan15) by (vm_compute; repeat apply conj; discriminate).
  assert (H2 : validDate jan20) by (vm_compute; repeat apply conj; discriminate).
  split; [exact H1|]. split; [exact H2|].
  apply (proj2 (isoMonth_same_month jan15 jan20 H1 H2)). vm_compute. reflexivity.
Defined.

(* ------------------------------------------------------------------ *)
(** ** Invalid dates *)
(* ------------------------------------------------------------------ *)

Lemma isoMonth_validTime d :
  if validTime d then exists k, isoMonth d = Ok k
  else isoMonth d = Throw (RangeError "Invalid time value").
Proof.
  unfold isoMonth, Date_toISOString. destruct d as [t|]; simpl; [|reflexivity].
  destruct (Z.abs t <=? maxTime)%Z; simpl; eauto.
Qed.

Lemma getMonthlyData_step_validTime acc t :
  if datedValidly t then exists acc', getMonthlyData_step acc t = Ok acc'
  else getMonthlyData_step acc t = Throw (RangeError "Invalid time value").
Proof.
  unfold datedValidly. pose proof (isoMonth_validTime (Transaction.date t)) as H.
  destruct (validTime (Transaction.date t)).
  - destruct H as (k & Hk). rewrite (getMonthlyData_step_eq acc t k Hk). eauto.
  - unfold getMonthlyData_step. now rewrite H.
Qed.

Lemma reduce_getMonthlyData_validTime ts : forall acc,
  if forallb datedValidly ts
  then exists acc', reduceM getMonthlyData_step ts acc = Ok acc'
  else reduceM getMonthlyData_step ts acc = Throw (RangeError "Invalid time value").
Proof.
  induction ts as [|t ts IH]; intros acc; simpl; [eauto|].
  pose proof (getMonthlyData_step_validTime acc t) as H.
  destruct (datedValidly t); simpl.
  - destruct H as (acc1 & ->). simpl. apply IH.
  - now rewrite H.
Qed.

(** [getMonthlyData] (lines 78-89) fails only on a date without a time
    value in range: it throws the RangeError of [toISOString] when some
    transaction has such a date, and returns otherwise. *)
Theorem getMonthlyData_invalid_date (transactions : list Transaction.t) :
  if forallb datedValidly transactions
  then exists monthlyData, getMonthlyData transactions = Ok monthlyData
  else getMonthlyData transactions = Throw (RangeError "Invalid time value").
Proof. apply reduce_getMonthlyData_validTime. Qed.

Lemma predictNextMonthSpending_validTime ts :
  if forallb datedValidly ts || (List.length ts <? 3)%nat
  then exists r, predictNextMonthSpending ts = Ok r
  else predictNextMonthSpending ts = Throw (RangeError "Invalid time value").
Proof.
  unfold predictNextMonthSpending.
  destruct (List.length ts <? 3)%nat; [rewrite orb_true_r; eauto|].
  rewrite orb_false_r.
  pose proof (getMonthlyData_invalid_date ts) as H.
  destruct (forallb datedValidly ts).
  - destruct H as (md & ->). simpl bind. fold (sortedMonths md).
    destruct (mapM_expensesOf md (Array_slice_last 3 (sortedMonths md))) as (es & ->).
    + intros m. apply In_skipn.
    + simpl. eauto.
  - now rewrite H.
Qed.

Lemma filterM_inCurrentMonth_validTime budget currentMonth ts :
  forallb datedValidly ts = true ->
  exists l, filterM (inCurrentMonth budget currentMonth) ts = Ok l.
Proof.
  induction ts as [|t ts IH]; simpl; [eauto|].
  intros H. apply andb_true_iff in H as [Ht Hts].
  destruct (IH Hts) as (l & Hl). rewrite Hl.
  unfold inCurrentMonth.
  destruct (String.eqb _ _ && Transaction.isExpense t); simpl; [|eauto].
  pose proof (isoMonth_validTime (Transaction.date t)) as H.
  unfold datedValidly in Ht. rewrite Ht in H. destruct H as (k & ->). simpl. eauto.
Qed.

Lemma budgetLoop_validTime currentMonth ts budgets :
  forallb datedValidly ts = true ->
  forall recs, exists recs',
    reduceM (budgetStep currentMonth ts) budgets recs = Ok recs'.
Proof.
  intros H. induction budgets as [|b bs IH]; intros recs; simpl; [eauto|].
  unfold budgetStep at 1.
  destruct (filterM_inCurrentMonth_validTime b currentMonth ts H) as (l & ->).
  simpl bind. match goal with |- context [if ?c then _ else _] => destruct c end;
    simpl; apply IH.
Qed.

Lemma generateRecommendations_error now ts budgets :
  Server.generateRecommendations now ts budgets =
  Throw (if forallb datedValidly ts && validTime now
         then ReferenceError "months"
         else RangeError "Invalid time value").
Proof.
  unfold Server.generateRecommendations.
  pose proof (getMonthlyData_invalid_date ts) as H.
  destruct (forallb datedValidly ts) eqn:V; [|now rewrite H].
  destruct H as (md & ->). simpl bind.
  pose proof (isoMonth_validTime now) as H.
  destruct (validTime now); [|now rewrite H].
  destruct H as (cm & ->). simpl bind. unfold budgetLoop.
  destruct (budgetLoop_validTime cm ts budgets V []) as (recs & ->).
  reflexivity.
Qed.

(** GET /api/analysis (lines 212-228), once the transactions and the
    budgets are fetched: the handler never sends the analysis.  It answers
    500 on every input, with the ReferenceError of line 133 when every date
    has a time value in range and with the RangeError of [toISOString]
    otherwise. *)
Theorem analysisRoute_always_fails (now : Date)
  (transactions : list Transaction.t) (budgets : list Budget.t) :
  analysisRoute now transactions budgets =
  Failure 500 (if forallb datedValidly transactions && validTime now
               then ReferenceError "months"
               else RangeError "Invalid time value").
Proof.
  unfold analysisRoute.
  pose proof (predictNextMonthSpending_validTime transactions) as H.
  rewrite (generateRecommendations_error now transactions budgets).
  destruct (forallb datedValidly transactions); simpl in *.
  - destruct H as (r & ->). reflexivity.
  - destruct (List.length transactions <? 3)%nat.
    + destruct H as (r & ->). reflexivity.
    + now rewrite H.
Qed.

(* ------------------------------------------------------------------ *)
(** ** The window of predictNextMonthSpending *)
(* ------------------------------------------------------------------ *)

Lemma skipn_nth {A} (l : list A) (d : A) : forall a,
  (a < List.length l)%nat -> skipn a l = nth a l d :: skipn (S a) l.
Proof.
  induction l as [|x l IH]; intros a Ha; simpl in Ha; [lia|].
  destruct a as [|a]; [reflexivity|]. simpl. apply IH. lia.
Qed.

Lemma mapM_expensesOf_from monthlyData n : forall a,
  (a + n = List.length (sortedMonths monthlyData))%nat ->
  mapM (expensesOf monthlyData) (skipn a (sortedMonths monthlyData)) =
  Ok (map (expensesAt monthlyData) (seq a n)).
Proof.
  induction n as [|n IH]; intros a Ha.
  - rewrite skipn_all2 by lia. reflexivity.
  - rewrite (skipn_nth _ "") by lia.
    change (mapM ?f (?x :: ?l))
      with (bind (f x) (fun b => bind (mapM f l) (fun bs => Ok (b :: bs)))).
    rewrite expensesOf_month by lia.
    rewrite IH by lia. reflexivity.
Qed.

(** [predictNextMonthSpending] (lines 93-105) on three or more
    transactions, [k] being the number of month buckets: it returns the sum
    of the expenses of the latest [min(3, k)] months divided by 3, whether
    or not there are three of them, with the confidence computed from the
    same values. *)
Theorem predictNextMonthSpending_window (transactions : list Transaction.t)
  (monthlyData : Obj MonthBucket) :
  getMonthlyData transactions = Ok monthlyData ->
  (3 <= List.length transactions)%nat ->
  predictNextMonthSpending transactions =
  Ok (Some
        {| prediction :=
             fold_left (fun a b => a + b)
                       (map (expensesAt monthlyData)
                            (seq (List.length monthlyData - 3)
                                 (Nat.min 3 (List.length monthlyData)))) 0 / 3;
           confidence :=
             calculateConfidence
               (map (expensesAt monthlyData)
                    (seq (List.length monthlyData - 3)
                         (Nat.min 3 (List.length monthlyData)))) |}).
Proof.
  intros Hmd Hlen. unfold predictNextMonthSpending.
  replace (List.length transactions <? 3)%nat with false
    by (symmetry; apply Nat.ltb_ge; exact Hlen).
  rewrite Hmd. simpl bind. fold (sortedMonths monthlyData).
  unfold Array_slice_last. rewrite sortedMonths_length.
  rewrite (mapM_expensesOf_from monthlyData (Nat.min 3 (List.length monthlyData)))
    by (rewrite sortedMonths_length; lia).
  reflexivity.
Qed.

Lemma predictNextMonthSpending_window_witness :
  getMonthlyData oneMonthThree =
  Ok [("2024-01", {| expenses := 600; income := 0 |})] /\
  (3 <= List.length oneMonthThree)%nat /\
  predictNextMonthSpending oneMonthThree =
  Ok (Some {| prediction := 200; confidence := 0 |}).
Proof.
  assert (H : getMonthlyData oneMonthThree =
              Ok [("2024-01", {| expenses := 600; income := 0 |})])
    by (vm_compute; reflexivity).
  assert (L : (3 <= List.length oneMonthThree)%nat) by (simpl; lia).
  split; [exact H|]. split; [exact L|].
  rewrite (predictNextMonthSpending_window oneMonthThree _ H L).
  vm_compute. reflexivity.
Defined.

(* ------------------------------------------------------------------ *)
(** ** GET /api/accuracy *)
(* ------------------------------------------------------------------ *)

Lemma backtest_loop_state monthlyData n : forall a st,
  (3 <= a)%nat ->
  (0 < n -> a + n <= List.length (sortedMonths monthlyData))%nat ->
  reduceM (backtestStep monthlyData (sortedMonths monthlyData)) (seq a n) st =
  Ok {| predictions := (predictions st ++ map (recordAt monthlyData) (seq a n))%list;
        totalAccuracy :=
          fold_left (fun acc i => acc + scoreAt monthlyData i) (seq a n)
                    (totalAccuracy st);
        predictionCount := (predictionCount st + n)%nat |}.
Proof.
  induction n as [|n IH]; intros a st Ha Hn; simpl.
  - rewrite app_nil_r, Nat.add_0_r. now destruct st.
  - rewrite backtestStep_eq by lia. simpl bind.
    rewrite IH by lia. simpl. rewrite <- app_assoc. simpl.
    rewrite <- Nat.add_succ_r. reflexivity.
Qed.

(** GET /api/accuracy (lines 231-269), once the transactions are fetched.
    With [k] month buckets the handler answers 200 with the records of the
    latest positions, at most three of them, from position [max(3, k - 3)]
    on; the average is the rounded mean of the scores of all [k - 3]
    positions and 0 when there is none; and the count is [k - 3].  When a
    date has no time value in range it answers 500. *)
Theorem accuracyReply_summary (transactions : list Transaction.t) :
  if forallb datedValidly transactions then
    exists monthlyData,
      getMonthlyData transactions = Ok monthlyData /\
      accuracyReply transactions =
      Json 200
        {| lastPredictions :=
             map (recordAt monthlyData)
                 (seq (Nat.max 3 (List.length monthlyData - 3))
                      (Nat.min 3 (List.length monthlyData - 3)));
           averageAccuracy :=
             if (3 <? List.length monthlyData)%nat
             then Math_round
                    (fold_left (fun acc i => acc + scoreAt monthlyData i)
                               (seq 3 (List.length monthlyData - 3)) 0
                     / of_nat (List.length monthlyData - 3))
             else 0;
           totalPredictions := (List.length monthlyData - 3)%nat |}
  else accuracyReply transactions = Failure 500 (RangeError "Invalid time value").
Proof.
  unfold accuracyReply, accuracyRoute.
  pose proof (getMonthlyData_invalid_date transactions) as H.
  destruct (forallb datedValidly transactions); [|now rewrite H].
  destruct H as (md & Hmd). exists md. split; [exact Hmd|].
  rewrite Hmd. simpl bind. unfold backtest. fold (sortedMonths md).
  rewrite backtest_loop_state by lia. simpl bind. unfold respond.
  rewrite sortedMonths_length. simpl predictionCount. simpl totalAccuracy.
  simpl predictions. f_equal. f_equal.
  - unfold Array_slice_last. rewrite length_map, length_seq.
    rewrite skipn_map, skipn_seq. f_equal. f_equal; lia.
  - destruct (Nat.ltb_spec 3 (List.length md)) as [Hlt|Hge];
      destruct (Nat.ltb_spec 0 (List.length md - 3)) as [Hlt'|Hge']; try lia;
      reflexivity.
Qed.

(* ------------------------------------------------------------------ *)
(** ** Request bodies: objects, key by key *)
(* ------------------------------------------------------------------ *)

Section ObjMore.
Variable V : Type.
Implicit Types (o : Obj V) (k : string) (v : V).

Lemma Obj_get_map (g : V -> V) o k :
  Obj_get (map (fun kv => (fst kv, g (snd kv))) o) k = option_map g (Obj_get o k).
Proof.
  induction o as [|[k' v'] o IH]; simpl; [reflexivity|].
  now destruct (String.eqb k k').
Qed.

Lemma Obj_keys_map (g : V -> V) o :
  map fst (map (fun kv => (fst kv, g (snd kv))) o) = map fst o.
Proof. induction o as [|[k v] o IH]; simpl; congruence. Qed.

Lemma Obj_get_notin o k : ~ In k (map fst o) -> Obj_get o k = None.
Proof.
  intros H. destruct (Obj_get o k) eqn:E; [|reflexivity].
  exfalso. apply H, Obj_get_In. congruence.
Qed.

(** Two objects with the same keys in the same order and the same value
    under each key are the same. *)
Lemma Obj_ext o o' :
  NoDup (map fst o) -> map fst o = map fst o' ->
  (forall k, Obj_get o k = Obj_get o' k) -> o = o'.
Proof.
  revert o'. induction o as [|[k v] o IH]; intros [|[k' v'] o']; simpl;
    try discriminate; [reflexivity|].
  intros Hnd [= <- Hk] Hget. inversion Hnd as [|? ? Hk' Hnd']; subst.
  pose proof (Hget k) as Hv. rewrite String.eqb_refl in Hv. injection Hv as <-.
  f_equal. apply IH; try assumption.
  intros k0. specialize (Hget k0).
  destruct (String.eqb_spec k0 k) as [E|Hne]; [|assumption].
  rewrite E, !Obj_get_notin; congruence.
Qed.

Lemma Obj_set_absent o k v : Obj_get o k = None -> Obj_set o k v = (o ++ [(k, v)])%list.
Proof.
  induction o as [|[k' v'] o IH]; simpl; [reflexivity|].
  destruct (String.eqb k k'); [discriminate|]. intros H. now rewrite IH.
Qed.

Lemma Obj_get_app o o' k :
  Obj_get (o ++ o')%list k =
  match Obj_get o k with Some v => Some v | None => Obj_get o' k end.
Proof.
  induction o as [|[k' v'] o IH]; simpl; [reflexivity|].
  now destruct (String.eqb k k').
Qed.

End ObjMore.

Lemma Object_keys_NoDup (V : Type) (o : Obj V) :
  NoDup (map fst o) -> NoDup (Object_keys o).
Proof. apply Permutation_NoDup. symmetry. apply Object_keys_perm. Qed.

(* ------------------------------------------------------------------ *)
(** ** securityMiddleware *)
(* ------------------------------------------------------------------ *)

Lemma sanitizeKey_keys body key : map fst (sanitizeKey body key) = map fst body.
Proof.
  unfold sanitizeKey. destruct (Obj_get body key) as [[]|] eqn:E; try reflexivity.
  apply Obj_keys_set_present. congruence.
Qed.

Lemma sanitizeKey_get body key k :
  Obj_get (sanitizeKey body key) k =
  if String.eqb key k then option_map sanitizeValue (Obj_get body k)
  else Obj_get body k.
Proof.
  unfold sanitizeKey. destruct (String.eqb_spec key k) as [<-|Hne].
  - destruct (Obj_get body key) as [[]|] eqn:E; rewrite ?E; try reflexivity.
    now rewrite Obj_get_set_same.
  - destruct (Obj_get body key) as [[]|]; try reflexivity.
    now apply Obj_get_set_other.
Qed.

Lemma fold_sanitizeKey_keys keys : forall body,
  map fst (fold_left sanitizeKey keys body) = map fst body.
Proof.
  induction keys as [|key keys IH]; intros body; simpl; [reflexivity|].
  now rewrite IH, sanitizeKey_keys.
Qed.

Lemma fold_sanitizeKey_get keys : forall body k,
  NoDup keys ->
  Obj_get (fold_left sanitizeKey keys body) k =
  if in_dec string_dec k keys then option_map sanitizeValue (Obj_get body k)
  else Obj_get body k.
Proof.
  induction keys as [|key keys IH]; intros body k Hnd; simpl fold_left.
  - reflexivity.
  - inversion Hnd as [|? ? Hkey Hnd']; subst.
    rewrite IH by assumption. rewrite !sanitizeKey_get.
    destruct (String.eqb_spec key k) as [<-|Hne].
    + destruct (in_dec string_dec key keys) as [i|_]; [contradiction|].
      destruct (in_dec string_dec key (key :: keys)) as [_|n]; [reflexivity|].
      exfalso. apply n. now left.
    + destruct (in_dec string_dec k keys) as [i|n];
        destruct (in_dec string_dec k (key :: keys)) as [i'|n']; try reflexivity.
      * exfalso. apply n'. now right.
      * destruct i' as [|]; [contradiction | contradiction].
Qed.

Lemma sanitizeIndex_head v items :
  sanitizeIndex (v :: items) 0 = sanitizeValue v :: items.
Proof. unfold sanitizeIndex. simpl. now destruct v. Qed.

Lemma sanitizeIndex_tail v items i :
  sanitizeIndex (v :: items) (S i) = v :: sanitizeIndex items i.
Proof.
  unfold sanitizeIndex. simpl. now destruct (nth_error items i) as [[]|].
Qed.

Lemma fold_sanitizeIndex_tail ixs : forall v items,
  fold_left sanitizeIndex (map S ixs) (v :: items) =
  v :: fold_left sanitizeIndex ixs items.
Proof.
  induction ixs as [|i ixs IH]; intros v items; simpl; [reflexivity|].
  now rewrite sanitizeIndex_tail, IH.
Qed.

Lemma fold_sanitizeIndex items :
  fold_left sanitizeIndex (seq 0 (List.length items)) items = map sanitizeValue items.
Proof.
  induction items as [|v items IH]; [reflexivity|].
  simpl List.length. rewrite <- cons_seq, <- seq_shift. simpl fold_left.
  now rewrite sanitizeIndex_head, fold_sanitizeIndex_tail, IH.
Qed.

Lemma sanitized_no_angle s : Forall (fun c => c <> 60%N /\ c <> 62%N) (sanitized s).
Proof.
  apply Forall_forall. intros c Hc. unfold sanitized, String_replace_angle in Hc.
  apply filter_In in Hc as [_ Hc]. unfold isAngle in Hc.
  apply negb_true_iff, orb_false_iff in Hc as [H1 H2].
  apply N.eqb_neq in H1, H2. auto.
Qed.

(** securityMiddleware (lines 10-22).  In an object body (each key once)
    every key keeps its place; a value that is a string is trimmed and then
    loses every [<] and [>]; any other value, a nested object or array
    included, stays as it is.  The items of an array body are treated the
    same way.  No string that results holds [<] or [>], but the blanks next
    to what was removed remain.  Whatever the body, the two headers are set
    and the other headers of the response are left alone. *)
Theorem securityMiddleware_sanitizes (headers : Obj string) :
  (forall o, NoDup (map fst o) ->
     fst (securityMiddleware (Some (VObject o)) headers) =
     Some (VObject (map (fun kv => (fst kv, sanitizeValue (snd kv))) o))) /\
  (forall items,
     fst (securityMiddleware (Some (VArray items)) headers) =
     Some (VArray (map sanitizeValue items))) /\
  (forall s, Forall (fun c => c <> 60%N /\ c <> 62%N) (sanitized s)) /\
  sanitized (text "  <b> Food </b>  ") = text "b Food /b" /\
  sanitized (text "< a >") = text " a " /\
  (forall body,
     Obj_get (snd (securityMiddleware body headers)) "x-content-type-options"
     = Some "nosniff" /\
     Obj_get (snd (securityMiddleware body headers)) "x-frame-options"
     = Some "DENY" /\
     forall name, name <> "x-content-type-options" -> name <> "x-frame-options" ->
       Obj_get (snd (securityMiddleware body headers)) name = Obj_get headers name).
Proof.
  split; [|split; [|split; [exact sanitized_no_angle |
                            split; [reflexivity | split; [reflexivity|]]]]].
  - intros o Hnd. simpl. do 2 f_equal.
    apply Obj_ext.
    + now rewrite fold_sanitizeKey_keys.
    + now rewrite fold_sanitizeKey_keys, Obj_keys_map.
    + intros k. rewrite fold_sanitizeKey_get by now apply Object_keys_NoDup.
      rewrite Obj_get_map.
      destruct (in_dec string_dec k (Object_keys o)) as [|n]; [reflexivity|].
      rewrite Object_keys_In in n.
      destruct (Obj_get o k); [exfalso; apply n; discriminate | reflexivity].
  - intros items. simpl. now rewrite fold_sanitizeIndex.
  - intros body. simpl. repeat split.
    + rewrite Obj_get_set_other by discriminate. apply Obj_get_set_same.
    + apply Obj_get_set_same.
    + intros name H1 H2. rewrite !Obj_get_set_other by congruence. reflexivity.
Qed.

(* ================================================================== *)
(** * backend/utils/mlModel.js: the sign of the result                 *)
(* ================================================================== *)

(** The regression's result is never negative: it is [NaN], [+0] or a
    positive number. *)
Theorem calculateSpendingPrediction_not_negative (historicalData : list Transaction.t) :
  isNaN (MlModel.calculateSpendingPrediction historicalData) = true \/
  MlModel.calculateSpendingPrediction historicalData = 0 \/
  (0 <? MlModel.calculateSpendingPrediction historicalData) = true.
Proof.
  unfold MlModel.calculateSpendingPrediction. cbv zeta.
  match goal with |- context [Math_max 0 ?x] => set (raw := x) end.
  destruct (Math_max_0 raw) as [[_ ->]|[[_ ->]|[P ->]]]; auto.
Qed.

(* ================================================================== *)
(** * backend/utils/recommendations.js: failure and grouping          *)
(* ================================================================== *)

(** The surplus-mode recommender (lines 22-41) throws exactly when the
    surplus is not positive and the totals have no key, that is when every
    expense, if there is any, has the category [__proto__]: the [reduce] of
    line 14 then runs on an empty array without an initial value.  On
    every other input it returns.  An expense of 600 in the category
    [__proto__] against a budget of 500 is such an input. *)
Theorem surplus_mode_fails_iff (transactions : list Transaction.t)
  (monthlyBudget : Number) :
  ((exists e, Recommendations.generateRecommendations transactions monthlyBudget
              = Throw e) <->
   (0 <? monthlyBudget - totalExpenses transactions) = false /\
   filter (fun t => Transaction.isExpense t && notProto (Transaction.category t))
          transactions = []) /\
  (forall e, Recommendations.generateRecommendations transactions monthlyBudget
             = Throw e ->
             e = TypeError "Reduce of empty array with no initial value") /\
  Recommendations.generateRecommendations protoExpense 500 =
  Throw (TypeError "Reduce of empty array with no initial value").
Proof.
  split; [|split; [|vm_compute; reflexivity]];
    unfold Recommendations.generateRecommendations;
    fold (total (filter Transaction.isExpense transactions));
    fold (totalExpenses transactions);
    destruct (0 <? monthlyBudget - totalExpenses transactions);
    try discriminate.
  - split; [intros [e H]; discriminate | intros [H _]; discriminate].
  - unfold Recommendations.findTopExpenseCategory.
    pose proof (categoryTotals_keys transactions) as Hkeys.
    destruct (Object_keys (Recommendations.categoryTotals transactions))
      as [|k ks]; simpl.
    + split; [intros _ | eauto]. split; [reflexivity|].
      apply filter_nil_iff. intros t Hin.
      destruct (Transaction.isExpense t) eqn:He; [|reflexivity].
      destruct (notProto (Transaction.category t)) eqn:Hp; [|reflexivity].
      exfalso. apply (proj2 (Hkeys (Transaction.category t))).
      split; [|eauto]. unfold notProto in Hp.
      now apply String.eqb_neq, negb_true_iff.
    + split; [intros [e H]; discriminate|]. intros [_ H]. exfalso.
      destruct (proj1 (Hkeys k) (or_introl eq_refl)) as (Hp & t & Hin & He & Hc).
      rewrite filter_nil_iff in H. specialize (H t Hin).
      rewrite He in H. unfold notProto in H. rewrite Hc in H.
      apply String.eqb_neq in Hp. rewrite Hp in H. discriminate H.
  - unfold Recommendations.findTopExpenseCategory, Recommendations.topOf.
    destruct (Object_keys _); simpl; congruence.
Qed.



(* ================================================================== *)
(** * backend/utils/dataProcessor.js: properties                       *)
(* ================================================================== *)

Lemma leb_zero_false x :
  (x <=? 0) = false <-> (0 <? x) = true \/ isNaN x = true.
Proof.
  unfold isNaN.
  rewrite FloatAxioms.leb_spec, FloatAxioms.ltb_spec, FloatAxioms.eqb_spec,
    Prim2SF_zero.
  unfold SFeqb.
  destruct (Prim2SF x) as [[]|[]| |[] m e]; rewrite ?SFcompare_refl_any; simpl;
    intuition discriminate.
Qed.

(** [validateData] (lines 13-22), on an entry whose [amount] is a number
    and whose [type] is a string: it accepts exactly when the amount is
    greater than 0 or is [NaN], and the type is [income] or [expense].  It
    accepts whatever the request validation of server.js accepts. *)
Theorem validateData_accepts (data : Transaction.t) :
  (fst (DataProcessor.validateData data) = true <->
   ((0 <? Transaction.amount data) = true \/ isNaN (Transaction.amount data) = true) /\
   (Transaction.type data = "income" \/ Transaction.type data = "expense")) /\
  (fst (DataProcessor.validateData data) = true <->
   snd (DataProcessor.validateData data) = []) /\
  (fst (validateTransaction data) = true ->
   fst (DataProcessor.validateData data) = true).
Proof.
  rewrite <- leb_zero_false.
  unfold DataProcessor.validateData, validateTransaction. simpl existsb.
  destruct (Transaction.amount data <=? 0);
    destruct (negb (truthy (Transaction.amount data)));
    destruct (String.eqb (Transaction.category data) "");
    destruct (String.eqb_spec (Transaction.type data) "income") as [Hi|Hi];
    destruct (String.eqb_spec (Transaction.type data) "expense") as [He|He];
    simpl; repeat split; try discriminate; try tauto; try congruence;
    intros [H _]; discriminate H.
Qed.

Lemma skipn_app_last {A} (older recent : list A) n :
  (n <= List.length recent)%nat ->
  Array_slice_last n (older ++ recent) = Array_slice_last n recent.
Proof.
  intros H. unfold Array_slice_last. rewrite length_app, skipn_app.
  rewrite skipn_all2 by lia. simpl. f_equal. lia.
Qed.

(** The moving average of dataProcessor.js (lines 25-32) reads the expense
    transactions only, and of those the last three: what comes before three
    or more expenses does not change the result.  It divides by 3 however
    many expenses there are, and without any expense it returns 0. *)
Theorem last_three_expenses (older recent : list Transaction.t) :
  (DataProcessor.predictNextMonthSpending recent =
   DataProcessor.predictNextMonthSpending (filter Transaction.isExpense recent)) /\
  ((3 <= List.length (filter Transaction.isExpense recent))%nat ->
   DataProcessor.predictNextMonthSpending (older ++ recent) =
   DataProcessor.predictNextMonthSpending recent) /\
  (filter Transaction.isExpense recent = [] ->
   DataProcessor.predictNextMonthSpending recent = 0) /\
  (forall t, Transaction.isExpense t = true ->
     DataProcessor.predictNextMonthSpending [t] =
     Math_round ((0 + Transaction.amount t) / 3 * 100) / 100).
Proof.
  unfold DataProcessor.predictNextMonthSpending. repeat apply conj.
  - rewrite filter_filter.
    rewrite (filter_ext (fun x => Transaction.isExpense x && Transaction.isExpense x)
                        Transaction.isExpense); [reflexivity|].
    intros t. now destruct (Transaction.isExpense t).
  - intros H. rewrite filter_app. now rewrite skipn_app_last.
  - intros ->. vm_compute. reflexivity.
  - intros t He. simpl. rewrite He. reflexivity.
Qed.

(* ================================================================== *)
(** * backend/middleware/security.js: properties                      *)
(* ================================================================== *)

(* ------------------------------------------------------------------ *)
(** ** basicSecurity *)
(* ------------------------------------------------------------------ *)

Lemma entries_keys (o : Obj Value) :
  map fst (Object_entries (VObject o)) = Object_keys o.
Proof.
  simpl. assert (H : forall k, In k (Object_keys o) -> Obj_get o k <> None)
    by (intros k; apply Object_keys_In).
  revert H. generalize (Object_keys o) as ks.
  induction ks as [|k ks IH]; intros H; simpl; [reflexivity|].
  destruct (Obj_get o k) eqn:E.
  - simpl. f_equal. apply IH. intros; apply H; now right.
  - exfalso. apply (H k); [now left | assumption].
Qed.

Lemma entries_get (o : Obj Value) k :
  Obj_get (Object_entries (VObject o)) k = Obj_get o k.
Proof.
  simpl.
  assert (H : ~ In k (Object_keys o) -> Obj_get o k = None).
  { intros H. destruct (Obj_get o k) eqn:E; [|reflexivity].
    exfalso. apply H, Object_keys_In. congruence. }
  revert H. generalize (Object_keys o) as ks.
  induction ks as [|k' ks IH]; intros H; simpl.
  - symmetry. apply H. tauto.
  - destruct (Obj_get o k') eqn:E; simpl.
    + destruct (String.eqb_spec k k') as [->|Hne]; [congruence|].
      apply IH. intros Hn. apply H. intros [|]; [congruence | contradiction].
    + apply IH. intros Hn. destruct (String.eqb_spec k k') as [->|Hne]; [assumption|].
      apply H. intros [|]; [congruence | contradiction].
Qed.

Lemma trimmed_prototypeAfter p v : prototypeAfter p (Security.trimmed v) = prototypeAfter p v.
Proof. now destruct v. Qed.

Lemma assign_proto acc v :
  Security.assign acc "__proto__" v =
  {| Security.prototype := prototypeAfter (Security.prototype acc) v;
     Security.properties := Security.properties acc |}.
Proof. unfold Security.assign. simpl. destruct v, acc; reflexivity. Qed.

(** The loop of lines 5-9 over entries with distinct keys, none of them
    set before. *)
Lemma fold_assign entries : forall acc,
  NoDup (map fst entries) ->
  (forall k, In k (map fst entries) -> Obj_get (Security.properties acc) k = None) ->
  fold_left (fun acc '(key, v) => Security.assign acc key (Security.trimmed v))
            entries acc =
  {| Security.prototype :=
       match Obj_get entries "__proto__" with
       | Some v => prototypeAfter (Security.prototype acc) v
       | None => Security.prototype acc
       end;
     Security.properties :=
       (Security.properties acc ++
        map (fun kv => (fst kv, Security.trimmed (snd kv)))
            (filter (fun kv => notProto (fst kv)) entries))%list |}.
Proof.
  induction entries as [|[key v] entries IH]; intros acc Hnd Hnew.
  - simpl. rewrite app_nil_r. now destruct acc.
  - inversion Hnd as [|? ? Hkey Hnd']; subst.
    change (fold_left ?f ((key, v) :: entries) acc)
      with (fold_left f entries (Security.assign acc key (Security.trimmed v))).
    change (Obj_get ((key, v) :: entries) "__proto__")
      with (if String.eqb "__proto__" key then Some v
            else Obj_get entries "__proto__").
    change (filter ?p ((key, v) :: entries))
      with (if notProto key then (key, v) :: filter p entries else filter p entries).
    unfold notProto at 1. rewrite (String.eqb_sym "__proto__" key).
    destruct (String.eqb_spec key "__proto__") as [->|Hne].
    + rewrite assign_proto, IH; try assumption.
      * simpl. rewrite trimmed_prototypeAfter.
        now rewrite (Obj_get_notin _ entries "__proto__").
      * intros k Hk. simpl. apply Hnew. now right.
    + simpl negb. cbv iota.
      unfold Security.assign.
      replace (String.eqb key "__proto__") with false
        by (symmetry; now apply String.eqb_neq).
      rewrite IH; try assumption.
      * simpl. rewrite Obj_set_absent by (apply Hnew; now left).
        now rewrite <- app_assoc.
      * intros k Hk. simpl.
        rewrite Obj_get_set_other by (intros ->; contradiction).
        apply Hnew. now right.
Qed.

Lemma Obj_get_filter_notProto (entries : Obj Value) k :
  k <> "__proto__" ->
  Obj_get (filter (fun kv => notProto (fst kv)) entries) k = Obj_get entries k.
Proof.
  intros Hk. induction entries as [|[k' v'] entries IH]; simpl; [reflexivity|].
  unfold notProto at 1. simpl.
  destruct (String.eqb_spec k' "__proto__") as [->|Hne]; simpl.
  - rewrite IH. now replace (String.eqb k "__proto__") with false
      by (symmetry; now apply String.eqb_neq).
  - now rewrite IH.
Qed.

Lemma filter_notProto_keys (entries : Obj Value) :
  map fst (filter (fun kv => notProto (fst kv)) entries) =
  filter notProto (map fst entries).
Proof.
  induction entries as [|[k v] entries IH]; simpl; [reflexivity|].
  destruct (notProto k); simpl; now rewrite IH.
Qed.

Lemma basicSecurity_object (o : Obj Value) :
  NoDup (map fst o) ->
  Security.basicSecurity (Some (VObject o)) =
  Security.Rebuilt
    {| Security.prototype :=
         match Obj_get o "__proto__" with
         | Some v => prototypeAfter Security.ObjectPrototype v
         | None => Security.ObjectPrototype
         end;
       Security.properties :=
         map (fun kv => (fst kv, Security.trimmed (snd kv)))
             (filter (fun kv => notProto (fst kv)) (Object_entries (VObject o))) |}.
Proof.
  intros Hnd. unfold Security.basicSecurity. simpl ToBoolean. cbv iota.
  rewrite fold_assign.
  - now rewrite entries_get.
  - rewrite entries_keys. now apply Object_keys_NoDup.
  - reflexivity.
Qed.

(** basicSecurity (lines 2-13) on an object body, each key once: the next
    handler sees a new object whose keys are those of the body in the order
    of [Object.keys], [__proto__] left out, each with the value it had,
    trimmed when it is a string. *)
Theorem basicSecurity_rebuilds (o : Obj Value) :
  NoDup (map fst o) ->
  exists sanitized,
    Security.basicSecurity (Some (VObject o)) = Security.Rebuilt sanitized /\
    map fst (Security.properties sanitized) = filter notProto (Object_keys o) /\
    (forall key, key <> "__proto__" ->
       Obj_get (Security.properties sanitized) key =
       option_map Security.trimmed (Obj_get o key)) /\
    Obj_get (Security.properties sanitized) "__proto__" = None.
Proof.
  intros Hnd. eexists. split; [now apply basicSecurity_object|].
  cbn [Security.properties Security.prototype].
  split; [|split].
  - now rewrite Obj_keys_map, filter_notProto_keys, entries_keys.
  - intros key Hkey.
    now rewrite Obj_get_map, Obj_get_filter_notProto, entries_get.
  - apply Obj_get_notin. rewrite Obj_keys_map, filter_notProto_keys.
    intros H. apply filter_In in H as [_ H].
    discriminate H.
Qed.

Lemma basicSecurity_rebuilds_witness :
  NoDup (map fst postedBody) /\
  exists sanitized,
    Security.basicSecurity (Some (VObject postedBody)) = Security.Rebuilt sanitized /\
    map fst (Security.properties sanitized) = ["category"; "amount"; "tags"].
Proof.
  assert (H : NoDup (map fst postedBody))
    by (repeat constructor; simpl; intuition discriminate).
  split; [exact H|].
  destruct (basicSecurity_rebuilds postedBody H) as (r & Hr & Hk & _).
  exists r. split; [exact Hr|]. rewrite Hk. reflexivity.
Defined.

(** A [__proto__] key of the body is not copied: its value, when it is an
    object, an array or [null], becomes the prototype of the object the
    next handler sees, which then inherits whatever the request put
    there. *)
Theorem basicSecurity_installs_prototype (o : Obj Value) (v : Value) :
  NoDup (map fst o) ->
  Obj_get o "__proto__" = Some v ->
  exists sanitized,
    Security.basicSecurity (Some (VObject o)) = Security.Rebuilt sanitized /\
    ~ In "__proto__" (map fst (Security.properties sanitized)) /\
    Security.prototype sanitized =
    match v with
    | VObject _ | VArray _ => Security.PrototypeOf v
    | VNull => Security.NullPrototype
    | VBoolean _ | VNumber _ | VString _ => Security.ObjectPrototype
    end.
Proof.
  intros Hnd Hv. eexists. split; [now apply basicSecurity_object|].
  cbn [Security.properties Security.prototype].
  split.
  - rewrite Obj_keys_map, filter_notProto_keys. intros H. apply filter_In in H as [_ H].
    discriminate H.
  - rewrite Hv. reflexivity.
Qed.

Lemma basicSecurity_installs_prototype_witness :
  NoDup (map fst postedBody) /\
  Obj_get postedBody "__proto__" = Some (VObject [("isAdmin", VBoolean true)]) /\
  exists sanitized,
    Security.basicSecurity (Some (VObject postedBody)) = Security.Rebuilt sanitized /\
    Security.prototype sanitized =
    Security.PrototypeOf (VObject [("isAdmin", VBoolean true)]).
Proof.
  assert (H : NoDup (map fst postedBody))
    by (repeat constructor; simpl; intuition discriminate).
  split; [exact H|]. split; [reflexivity|].
  destruct (basicSecurity_installs_prototype postedBody _ H eq_refl)
    as (r & Hr & _ & Hp).
  exists r. split; assumption.
Defined.

(* ------------------------------------------------------------------ *)
(** ** basicSecurity on a body that is not an object *)
(* ------------------------------------------------------------------ *)

Lemma digits_parse n :
  NilZero.uint_of_string (digits n) = Some (N.to_uint (Z.to_N n)).
Proof.
  unfold digits. apply NilZero.usu.
  destruct (Z.to_N n); simpl; [discriminate | apply Unsigned.to_uint_nonnil].
Qed.

Lemma indexKey_inj i j : indexKey i = indexKey j -> i = j.
Proof.
  unfold indexKey. intros H. apply (f_equal NilZero.uint_of_string) in H.
  rewrite !digits_parse in H. injection H as H.
  apply DecimalN.Unsigned.to_uint_inj in H. lia.
Qed.

Lemma indexKey_notProto i : notProto (indexKey i) = true.
Proof.
  unfold notProto. apply negb_true_iff, String.eqb_neq. intros H.
  apply (f_equal NilZero.uint_of_string) in H. unfold indexKey in H.
  rewrite digits_parse in H. discriminate H.
Qed.

Lemma indexKeys_NoDup a n : NoDup (map indexKey (seq a n)).
Proof.
  apply NoDup_map_inj; [|apply seq_NoDup].
  intros; now apply indexKey_inj.
Qed.

Lemma combine_keys {A} (keys : list string) (vs : list A) :
  List.length keys = List.length vs -> map fst (combine keys vs) = keys.
Proof.
  revert vs. induction keys as [|k keys IH]; intros [|v vs]; simpl;
    try discriminate; [reflexivity|].
  intros [= H]. now rewrite IH.
Qed.

Lemma combine_trimmed keys : forall vs,
  Forall (fun k => notProto k = true) keys ->
  map (fun kv => (fst kv, Security.trimmed (snd kv)))
      (filter (fun kv : string * Value => notProto (fst kv)) (combine keys vs)) =
  combine keys (map Security.trimmed vs).
Proof.
  induction keys as [|k keys IH]; intros [|v vs] H; simpl; try reflexivity.
  inversion H as [|? ? Hk Hks]; subst. rewrite Hk. simpl. now rewrite IH.
Qed.

(** basicSecurity on a body that is not an object.  An array does not
    stay an array: the next handler sees a plain object with the indices as
    keys and the items, trimmed when they are strings, as values.  A
    number or boolean that is truthy is replaced by an empty object; a
    missing body and [null] pass as they are. *)
Theorem basicSecurity_array (items : list Value) :
  Security.basicSecurity (Some (VArray items)) =
  Security.Rebuilt
    {| Security.prototype := Security.ObjectPrototype;
       Security.properties :=
         combine (map indexKey (seq 0 (List.length items)))
                 (map Security.trimmed items) |} /\
  Security.basicSecurity (Some (VBoolean true)) =
  Security.Rebuilt {| Security.prototype := Security.ObjectPrototype;
                      Security.properties := [] |} /\
  (forall x, truthy x = true ->
     Security.basicSecurity (Some (VNumber x)) =
     Security.Rebuilt {| Security.prototype := Security.ObjectPrototype;
                         Security.properties := [] |}) /\
  Security.basicSecurity None = Security.Received None /\
  Security.basicSecurity (Some VNull) = Security.Received (Some VNull).
Proof.
  split; [|split; [reflexivity | split; [|split; reflexivity]]].
  - unfold Security.basicSecurity. simpl ToBoolean. cbv iota.
    assert (L : List.length (map indexKey (seq 0 (List.length items)))
                = List.length items) by now rewrite length_map, length_seq.
    rewrite fold_assign.
    + simpl Object_entries. cbn [Security.prototype Security.properties app].
      rewrite Obj_get_notin, combine_trimmed; [reflexivity | |].
      * apply Forall_forall. intros k Hk. apply in_map_iff in Hk as (i & <- & _).
        apply indexKey_notProto.
      * rewrite combine_keys by exact L. intros H.
        apply in_map_iff in H as (i & H & _).
        pose proof (indexKey_notProto i) as P. rewrite H in P. discriminate P.
    + simpl Object_entries. rewrite combine_keys by exact L. apply indexKeys_NoDup.
    + reflexivity.
  - intros x Hx. unfold Security.basicSecurity. simpl. now rewrite Hx.
Qed.
